(** * Assistant conversations router: a shallow embedding

    The development follows [web/src/server/api/routers/conversations.ts]
    (the tRPC router [conversationsRouter]) and the migration
    [20250724145259_add_conversations/migration.sql] that creates the two
    tables it works on.

    - Tables are lists of rows in insertion order; timestamps are
      milliseconds ([TIMESTAMP(3)]) as [Z]; identifiers and text are strings
      (sequences of UTF-8 bytes).
    - The store is PostgreSQL.  It refuses text that contains the character
      NUL: a statement that carries such text throws.  The texts that reach
      the store from outside are the conversation identifier of a request
      and the contents of messages; the project and the caller are those the
      session was admitted for.  And it returns rows that an [ORDER BY] does
      not tell apart in an order of its own, which the store carries here as
      a rank of its rows.
    - The handlers are [async] functions that issue one statement after the
      other, with no transaction around them.  They are written in a small
      state-and-exception monad [M] over a [World]: the database, the clock,
      and the trace of statements and provider calls issued so far.  A thrown
      exception keeps the writes made before it.
    - What the router imports from other packages (the credential schema,
      decryption, the completion helper, identifier generation, the clock)
      is a field of the environment [Env], so every statement below holds for
      any behaviour of these; of the identifiers generated it is only known
      that they have no NUL in them. *)

From Stdlib Require Import ZArith Lia Ascii String QArith.
From stdpp Require Import base option list sorting strings pretty gmap.

Local Open Scope Z_scope.

(** ** Rows of the three tables *)

Inductive MessageSender := USER | ASSISTANT.

#[global] Instance MessageSender_eq_dec : EqDecision MessageSender.
Proof. solve_decision. Defined.

Module Conversation.
Record t := mk {
  id : string;
  createdAt : Z;
  updatedAt : Z;
  userId : string;
  projectId : string
}.
End Conversation.

Module Message.
Record t := mk {
  id : string;
  createdAt : Z;
  conversationId : string;
  sender : MessageSender;
  content : string
}.
End Message.

(** The credential table belongs to another feature; the router reads
    [projectId] and [createdAt] and hands the whole row to the schema. *)
Module LlmApiKeys.
Record t := mk {
  id : string;
  createdAt : Z;
  projectId : string;
  provider : string;
  adapter : string;
  secretKey : string;
  baseURL : option string;
  extraHeaders : option string;
  config : option string
}.
End LlmApiKeys.

(** The three tables, and for each the rank by which the store orders rows
    that a query's [ORDER BY] leaves equal.  SQL leaves that order open; any
    order the store may answer with is the order of some rank. *)
Record Db := mkStore {
  conversation : list Conversation.t;
  message : list Message.t;
  llmApiKeys : list LlmApiKeys.t;
  tie_conversation : Conversation.t -> Z;
  tie_message : Message.t -> Z;
  tie_llmApiKeys : LlmApiKeys.t -> Z
}.

(** A store that leaves equal rows in the order of the table. *)
Definition mkDb (conversations : list Conversation.t)
    (messages : list Message.t) (keys : list LlmApiKeys.t) : Db :=
  mkStore conversations messages keys (fun _ => 0) (fun _ => 0) (fun _ => 0).

(** The store with other conversation and message rows. *)
Definition with_rows (d : Db) (conversations : list Conversation.t)
    (messages : list Message.t) : Db :=
  mkStore conversations messages (llmApiKeys d) (tie_conversation d)
    (tie_message d) (tie_llmApiKeys d).

(** ** Values exchanged with the completion helper *)

Inductive ChatMessageType :=
  ChatMessageType_System | ChatMessageType_User | ChatMessageType_AssistantText.

Inductive ChatMessageRole :=
  ChatMessageRole_System | ChatMessageRole_User | ChatMessageRole_Assistant.

Module ChatMessage.
Record t := mk {
  type : ChatMessageType;
  role : ChatMessageRole;
  content : string
}.
End ChatMessage.

Module ModelParams.
Record t := mk {
  provider : string;
  adapter : string;
  model : string;
  temperature : Q;
  max_tokens : Z
}.
End ModelParams.

Module FetchLLMCompletionParams.
Record t := mk {
  streaming : bool;
  apiKey : string;
  extraHeaders : option (list (string * string));
  baseURL : option string;
  messages : list ChatMessage.t;
  modelParams : ModelParams.t;
  config : option string;
  maxRetries : Z
}.
End FetchLLMCompletionParams.

(** [typeof completion === "string"] or anything else. *)
Inductive Completion := CompletionString (s : string) | CompletionOther.

(** The data of a successful [LLMApiKeySchema.safeParse]. *)
Module ParsedKey.
Record t := mk {
  provider : string;
  adapter : string;
  secretKey : string;
  baseURL : option string;
  extraHeaders : option string;
  config : option string
}.
End ParsedKey.

Inductive SafeParseResult :=
| ParseSuccess (data : ParsedKey.t)
| ParseFailure (message : string).

(** ** Exceptions *)

Inductive TRPCCode := NOT_FOUND | BAD_REQUEST.

(** What a JavaScript [throw] can carry: a [TRPCError], any other [Error]
    with its message, or a value that is not an [Error] at all. *)
Inductive Exn :=
| TRPCError (code : TRPCCode) (message : string)
| JsError (message : string)
| NonError.

(** ** The trace of statements issued to the store and of provider calls *)

Inductive Event :=
| Ev_conversation_findMany (projectId userId : string)
| Ev_conversation_findFirst (id projectId userId : string)
| Ev_conversation_create (row : Conversation.t)
| Ev_conversation_update (id : string) (updatedAt : Z)
| Ev_message_create (row : Message.t)
| Ev_message_findMany (conversationId : string)
| Ev_llmApiKeys_findFirst (projectId : string)
| Ev_fetchLLMCompletion (params : FetchLLMCompletionParams.t).

(** ** JSON input of a procedure, before schema validation

    Scalars are enough: every field the schemas of this router read is a
    string, and any other value is rejected alike. *)

Inductive Json :=
| JNull
| JBool (b : bool)
| JNumber (n : Z)
| JString (s : string).

(** The character NUL, which the store does not accept in text. *)
Definition has_nul (s : string) : bool :=
  existsb (fun c => bool_decide (c = "000"%char)) (list_ascii_of_string s).

(** ** The environment: everything the router imports *)

Record Env := mkEnv {
  (** [LLMApiKeySchema.safeParse] *)
  LLMApiKeySchema_safeParse : LlmApiKeys.t -> SafeParseResult;
  (** [decrypt] of [@langfuse/shared/encryption] *)
  decrypt : string -> Exn + string;
  decryptAndParseExtraHeaders :
    option string -> Exn + option (list (string * string));
  (** the outcome of the completion helper for given parameters *)
  fetchLLMCompletion : FetchLLMCompletionParams.t -> Exn + Completion;
  (** the n-th identifier the client generates for a new row *)
  cuid : nat -> string;
  (** the time that passes before the n-th reading of the clock *)
  elapsed : nat -> N;
  (** the message of the error raised for an input the schema rejects *)
  zodMessage : gmap string Json -> string;
  (** [cuid] identifiers are a letter followed by letters and digits *)
  cuid_no_nul : forall n, has_nul (cuid n) = false
}.

Record Ctx := mkCtx { session_user_id : string }.

(** ** World and monad *)

Record World := mkWorld {
  db : Db;
  now : Z;
  clock_reads : nat;
  ids_issued : nat;
  trace : list Event
}.

Definition M (A : Type) : Type := World -> (Exn + A) * World.

Definition ret {A} (a : A) : M A := fun w => (inr a, w).

Definition bind {A B} (m : M A) (k : A -> M B) : M B :=
  fun w =>
    match m w with
    | (inr a, w') => k a w'
    | (inl e, w') => (inl e, w')
    end.

Definition throw {A} (e : Exn) : M A := fun w => (inl e, w).

(** [try { body } catch (error) { handler }]: the state reached when the
    exception was thrown is the one the handler continues from. *)
Definition try_catch {A} (body : M A) (handler : Exn -> M A) : M A :=
  fun w =>
    match body w with
    | (inr a, w') => (inr a, w')
    | (inl e, w') => handler e w'
    end.

(** A call that returns or throws and touches nothing. *)
Definition lift {A} (r : Exn + A) : M A := fun w => (r, w).

Notation "'let!' x ':=' m 'in' k" := (bind m (fun x => k))
  (at level 10, x name, m at level 100, k at level 200).

Definition get_db : M Db := fun w => (inr (db w), w).

Definition put_db (d : Db) : M unit :=
  fun w => (inr tt, mkWorld d (now w) (clock_reads w) (ids_issued w) (trace w)).

Definition add_events (w : World) (evs : list Event) : World :=
  mkWorld (db w) (now w) (clock_reads w) (ids_issued w) (trace w ++ evs).

Definition emit (e : Event) : M unit := fun w => (inr tt, add_events w [e]).

(** Reading the clock ([CURRENT_TIMESTAMP], [new Date()]): time has moved on
    by a non-negative amount since the last reading. *)
Definition read_clock (env : Env) : M Z :=
  fun w =>
    let t := now w + Z.of_N (elapsed env (clock_reads w)) in
    (inr t, mkWorld (db w) t (S (clock_reads w)) (ids_issued w) (trace w)).

Definition fresh_id (env : Env) : M string :=
  fun w =>
    (inr (cuid env (ids_issued w)),
     mkWorld (db w) (now w) (clock_reads w) (S (ids_issued w)) (trace w)).

(** ** JavaScript values that may be [undefined] or [null] *)

Inductive Nullable (A : Type) :=
| undefined
| null
| defined (a : A).
Arguments undefined {A}.
Arguments null {A}.
Arguments defined {A} a.

(** [xs[i]] *)
Definition js_index {A} (xs : list A) (i : nat) : Nullable A :=
  match xs !! i with
  | Some a => defined a
  | None => undefined
  end.

(** [x || null] for [x] an object, [undefined] or [null]: an object is
    truthy. *)
Definition js_or_null {A} (x : Nullable A) : Nullable A :=
  match x with
  | defined a => defined a
  | _ => null
  end.

(** [s || undefined] for a string or nothing: the empty string is falsy. *)
Definition js_or_undefined (s : option string) : option string :=
  match s with
  | Some EmptyString => None
  | other => other
  end.

(** ** Query helpers: [orderBy], [where], [take] *)

Inductive SortOrder := asc | desc.

Fixpoint insert_by {A} (le : A -> A -> bool) (x : A) (l : list A) : list A :=
  match l with
  | [] => [x]
  | y :: l' => if le x y then x :: y :: l' else y :: insert_by le x l'
  end.

(** Insertion sort from the right: rows with equal keys keep the order the
    list has them in. *)
Definition sort_by {A} (le : A -> A -> bool) (l : list A) : list A :=
  foldr (insert_by le) [] l.

Definition key_le {A} (key : A -> Z) (o : SortOrder) (x y : A) : bool :=
  match o with
  | asc => key x <=? key y
  | desc => key y <=? key x
  end.

Definition orderBy {A} (key : A -> Z) (o : SortOrder) (rows : list A) : list A :=
  sort_by (key_le key o) rows.

(** [orderBy] as the store answers it: the rows in the order asked for, and
    rows of equal key by the store's rank (then by their place in the
    table). *)
Definition store_orderBy {A} (tie : A -> Z) (key : A -> Z) (o : SortOrder)
    (rows : list A) : list A :=
  orderBy key o (orderBy tie asc rows).

Definition conversation_where (id projectId userId : string)
    (c : Conversation.t) : Prop :=
  Conversation.id c = id /\ Conversation.projectId c = projectId
  /\ Conversation.userId c = userId.

#[global] Instance conversation_where_dec id projectId userId c :
  Decision (conversation_where id projectId userId c).
Proof. unfold conversation_where. apply _. Defined.

Definition owned_by (projectId userId : string) (c : Conversation.t) : Prop :=
  Conversation.projectId c = projectId /\ Conversation.userId c = userId.

#[global] Instance owned_by_dec projectId userId c :
  Decision (owned_by projectId userId c).
Proof. unfold owned_by. apply _. Defined.

Definition messages_of (conversationId : string) (ms : list Message.t) :
    list Message.t :=
  filter (fun m => Message.conversationId m = conversationId) ms.

(** [findFirst({ where: { id, projectId, userId } })] on the conversations:
    the first row that matches all three, if any. *)
Definition lookup_conversation (d : Db) (id projectId userId : string) :
    option Conversation.t :=
  head (filter (conversation_where id projectId userId) (conversation d)).

(** [findMany({ where: { conversationId }, orderBy: { createdAt }, take })]
    on the messages. *)
Definition select_messages (d : Db) (conversationId : string) (o : SortOrder)
    (n : nat) : list Message.t :=
  take n (store_orderBy (tie_message d) Message.createdAt o
            (messages_of conversationId (message d))).

(** [findFirst({ where: { projectId }, orderBy: { createdAt: "desc" } })] on
    the credentials. *)
Definition newest_llmApiKey (d : Db) (projectId : string) : option LlmApiKeys.t :=
  head (store_orderBy (tie_llmApiKeys d) LlmApiKeys.createdAt desc
          (filter (fun k => LlmApiKeys.projectId k = projectId) (llmApiKeys d))).

(** ** Fixed texts of the router *)

Definition nl : string := String "010"%char EmptyString.
Definition dquote : string := String "034"%char EmptyString.

Definition systemInstruction : string :=
  "You are a helpful AI assistant integrated into Langfuse. Provide clear, helpful responses to user questions. Keep your responses concise and relevant.".

Definition defaultModel : string := "gpt-3.5-turbo".

Definition noCompletionResponse : string :=
  "I apologize, but I couldn't generate a proper response. Please try again.".

Definition conversationNotFound : string := "Conversation not found".

Definition invalidApiKeyConfiguration (message : string) : string :=
  "Invalid API key configuration: " +:+ message.

(** The reply built in the [catch] branch. *)
Definition providerErrorResponse (errorText : string) : string :=
  "I'm sorry, but I encountered an error while processing your request. The error was: " +:+
  errorText +:+ nl +:+ nl +:+
  "Please check your LLM API configuration in ‚öôÔ∏è Settings ‚Üí " +:+
  dquote +:+ "LLM Connections" +:+ dquote +:+ " and try again.".

(** The reply when the project has no credential. *)
Definition onboardingResponse (content : string) : string :=
  "Hello! I received your message: " +:+ dquote +:+ content +:+ dquote +:+
  "." +:+ nl +:+ nl +:+ "To enable AI-powered responses:" +:+ nl +:+ nl +:+
  "üîë **Step 1: Add LLM API Key**" +:+ nl +:+
  "1. Go to ‚öôÔ∏è Settings ‚Üí " +:+ dquote +:+ "LLM Connections" +:+
  dquote +:+ nl +:+ "2. Click " +:+ dquote +:+ "Add New API Key" +:+ dquote +:+
  nl +:+ "3. Choose your provider:" +:+ nl +:+
  "   ‚Ä¢ **OpenAI**: Get key from https://platform.openai.com/api-keys" +:+
  nl +:+
  "   ‚Ä¢ **Google AI**: Get key from https://aistudio.google.com/app/apikey" +:+
  nl +:+ nl +:+ "ü§ñ **Step 2: Configure Model**" +:+ nl +:+
  "‚Ä¢ Select your preferred model (e.g., gpt-3.5-turbo, gemini-pro)" +:+
  nl +:+ "‚Ä¢ Save the configuration" +:+ nl +:+ nl +:+
  "Once configured, I'll provide intelligent AI responses to all your questions!".

(** [error instanceof Error ? error.message : "Unknown error"] *)
Definition error_message (error : Exn) : string :=
  match error with
  | TRPCError _ message => message
  | JsError message => message
  | NonError => "Unknown error"
  end.

(** ** The statements the router issues through the database client *)

(** Text of the client's errors; only the fact that it throws matters. *)
Definition foreignKeyViolation : string := "Foreign key constraint violated".
Definition recordNotFound : string := "Record to update not found".
Definition nulByteRejected : string :=
  "invalid byte sequence for encoding UTF8: 0x00".

(** [prisma.conversation.findFirst({ where: { id, projectId, userId } })]:
    the store refuses an identifier with a NUL in it, and the client throws
    (an error that is no [TRPCError]; the transport reports it as an internal
    server error). *)
Definition conversation_findFirst (id projectId userId : string) :
    M (option Conversation.t) :=
  let! _ := emit (Ev_conversation_findFirst id projectId userId) in
  let! d := get_db in
  if has_nul id then throw (JsError nulByteRejected)
  else ret (lookup_conversation d id projectId userId).

(** [prisma.conversation.create({ data: { projectId, userId } })]: the
    identifier and both timestamps take their defaults. *)
Definition conversation_create (env : Env) (projectId userId : string) :
    M Conversation.t :=
  let! id := fresh_id env in
  let! t := read_clock env in
  let row := Conversation.mk id t t userId projectId in
  let! _ := emit (Ev_conversation_create row) in
  let! d := get_db in
  let! _ := put_db (with_rows d (conversation d ++ [row]) (message d)) in
  ret row.

(** The row with a new [updatedAt]. *)
Definition set_updatedAt (id : string) (updatedAt : Z) (c : Conversation.t) :
    Conversation.t :=
  if decide (Conversation.id c = id)
  then Conversation.mk (Conversation.id c) (Conversation.createdAt c) updatedAt
         (Conversation.userId c) (Conversation.projectId c)
  else c.

(** [prisma.conversation.update({ where: { id }, data: { updatedAt } })]:
    throws when no row has the identifier. *)
Definition conversation_update (id : string) (updatedAt : Z) : M unit :=
  let! _ := emit (Ev_conversation_update id updatedAt) in
  let! d := get_db in
  if decide (id ∈ Conversation.id <$> conversation d) then
    put_db
      (with_rows d (set_updatedAt id updatedAt <$> conversation d) (message d))
  else throw (JsError recordNotFound).

(** [prisma.message.create({ data: { conversationId, sender, content } })]:
    the store refuses text with a NUL in it, and
    [messages_conversation_id_fkey] requires the conversation to exist; in
    both cases the client throws and no row is stored. *)
Definition message_create (env : Env) (conversationId : string)
    (sender : MessageSender) (content : string) : M Message.t :=
  let! id := fresh_id env in
  let! t := read_clock env in
  let row := Message.mk id t conversationId sender content in
  let! _ := emit (Ev_message_create row) in
  let! d := get_db in
  if has_nul conversationId || has_nul content
  then throw (JsError nulByteRejected)
  else if decide (conversationId ∈ Conversation.id <$> conversation d) then
    let! _ := put_db (with_rows d (conversation d) (message d ++ [row])) in
    ret row
  else throw (JsError foreignKeyViolation).

(** [prisma.message.findMany({ where: { conversationId },
                               orderBy: { createdAt }, take })] *)
Definition message_findMany (conversationId : string) (o : SortOrder)
    (n : nat) : M (list Message.t) :=
  let! _ := emit (Ev_message_findMany conversationId) in
  let! d := get_db in
  ret (select_messages d conversationId o n).

(** [prisma.llmApiKeys.findFirst({ where: { projectId },
                                   orderBy: { createdAt: "desc" } })] *)
Definition llmApiKeys_findFirst (projectId : string) : M (option LlmApiKeys.t) :=
  let! _ := emit (Ev_llmApiKeys_findFirst projectId) in
  let! d := get_db in
  ret (newest_llmApiKey d projectId).

(** The completion helper is called with its parameters and returns or
    throws. *)
Definition call_fetchLLMCompletion (env : Env)
    (params : FetchLLMCompletionParams.t) : M Completion :=
  let! _ := emit (Ev_fetchLLMCompletion params) in
  lift (fetchLLMCompletion env params).

(** ** Inputs and results of the procedures *)

Module ProjectInput.
Record t := mk { projectId : string }.
End ProjectInput.

Module GetConversationInput.
Record t := mk { projectId : string; conversationId : string }.
End GetConversationInput.

Module SendMessageInput.
Record t := mk { projectId : string; conversationId : string; content : string }.
End SendMessageInput.

(** A row of [conversation.findMany] with its [include]. *)
Module ConversationWithInclude.
Record t := mk {
  row : Conversation.t;
  messages : list Message.t;
  _count_messages : nat
}.
End ConversationWithInclude.

Module ConversationSummary.
Record t := mk {
  id : string;
  createdAt : Z;
  updatedAt : Z;
  messageCount : nat;
  lastMessage : Nullable Message.t
}.
End ConversationSummary.

Module ConversationDetail.
Record t := mk { row : Conversation.t; messages : list Message.t }.
End ConversationDetail.

Module SendMessageResult.
Record t := mk { userMessage : Message.t; assistantMessage : Message.t }.
End SendMessageResult.

(** ** Input schemas *)

(** [z.string()] on the field of a JSON object *)
Definition z_string (v : option Json) : option string :=
  match v with
  | Some (JString s) => Some s
  | _ => None
  end.

(** [z.string().min(n)] *)
Definition z_string_min (n : nat) (v : option Json) : option string :=
  match z_string v with
  | Some s => if decide (n <= String.length s)%nat then Some s else None
  | None => None
  end.

Definition ProjectSchema (raw : gmap string Json) : option ProjectInput.t :=
  projectId ← z_string (raw !! "projectId");
  Some (ProjectInput.mk projectId).

Definition CreateConversationSchema := ProjectSchema.

Definition GetConversationSchema (raw : gmap string Json) :
    option GetConversationInput.t :=
  projectId ← z_string (raw !! "projectId");
  conversationId ← z_string (raw !! "conversationId");
  Some (GetConversationInput.mk projectId conversationId).

Definition SendMessageSchema (raw : gmap string Json) :
    option SendMessageInput.t :=
  projectId ← z_string (raw !! "projectId");
  conversationId ← z_string (raw !! "conversationId");
  content ← z_string_min 1 (raw !! "content");
  Some (SendMessageInput.mk projectId conversationId content).

(** [procedure.input(schema).query(resolver)] (or [.mutation]): an input the
    schema rejects is answered with [BAD_REQUEST] and the resolver does not
    run.  The session in [ctx] is the authenticated caller. *)
Definition protectedProjectProcedure {I O} (env : Env)
    (schema : gmap string Json -> option I) (resolver : Ctx -> I -> M O)
    (ctx : Ctx) (rawInput : gmap string Json) : M O :=
  match schema rawInput with
  | Some input => resolver ctx input
  | None => throw (TRPCError BAD_REQUEST (zodMessage env rawInput))
  end.

(** ** The router *)

(** [prisma.conversation.findMany] of [all]: the caller's conversations of
    the project, most recently updated first, each with its newest message
    ([orderBy: { createdAt: "desc" }, take: 1]) and its message count. *)
Definition conversation_findMany_include (projectId userId : string) :
    M (list ConversationWithInclude.t) :=
  let! _ := emit (Ev_conversation_findMany projectId userId) in
  let! d := get_db in
  ret (map
         (fun c =>
            ConversationWithInclude.mk c
              (take 1 (store_orderBy (tie_message d) Message.createdAt desc
                         (messages_of (Conversation.id c) (message d))))
              (length (messages_of (Conversation.id c) (message d))))
         (store_orderBy (tie_conversation d) Conversation.updatedAt desc
            (filter (owned_by projectId userId) (conversation d)))).

(** [prisma.conversation.findFirst] of [byId], with
    [include: { messages: { orderBy: { createdAt: "asc" } } }]. *)
Definition conversation_findFirst_include (id projectId userId : string) :
    M (option ConversationDetail.t) :=
  let! _ := emit (Ev_conversation_findFirst id projectId userId) in
  let! d := get_db in
  if has_nul id then throw (JsError nulByteRejected)
  else
    ret (match lookup_conversation d id projectId userId with
         | Some c =>
             Some (ConversationDetail.mk c
                     (store_orderBy (tie_message d) Message.createdAt asc
                        (messages_of (Conversation.id c) (message d))))
         | None => None
         end).

(** [messages.push(x)] *)
Definition push {A} (xs : list A) (x : A) : list A := xs ++ [x].

Definition systemTurn : ChatMessage.t :=
  ChatMessage.mk ChatMessageType_System ChatMessageRole_System systemInstruction.

Definition userTurn (content : string) : ChatMessage.t :=
  ChatMessage.mk ChatMessageType_User ChatMessageRole_User content.

Definition assistantTurn (content : string) : ChatMessage.t :=
  ChatMessage.mk ChatMessageType_AssistantText ChatMessageRole_Assistant content.

(** The turn pushed for one message of the history. *)
Definition historyTurn (msg : Message.t) : ChatMessage.t :=
  if decide (Message.sender msg = USER)
  then userTurn (Message.content msg)
  else assistantTurn (Message.content msg).

(** The prompt: the system instruction, one turn pushed per message of the
    history, then the content just sent pushed as a user turn. *)
Definition chatMessages (conversationHistory : list Message.t)
    (content : string) : list ChatMessage.t :=
  let messages := [systemTurn] in
  let messages :=
    fold_left (fun messages msg => push messages (historyTurn msg))
      conversationHistory messages in
  push messages (userTurn content).

(** The argument of [fetchLLMCompletion]: not streaming, one retry, the
    default model with temperature 0.7 and at most 1000 tokens. *)
Definition completion_params (data : ParsedKey.t) (apiKey : string)
    (extraHeaders : option (list (string * string)))
    (messages : list ChatMessage.t) : FetchLLMCompletionParams.t :=
  let modelParams :=
    ModelParams.mk (ParsedKey.provider data) (ParsedKey.adapter data)
      defaultModel (7 # 10)%Q 1000 in
  FetchLLMCompletionParams.mk false apiKey extraHeaders
    (js_or_undefined (ParsedKey.baseURL data)) messages modelParams
    (ParsedKey.config data) 1.

(** The body of the [try] block of [sendMessage]. *)
Definition completion_attempt (env : Env) (llmApiKey : LlmApiKeys.t)
    (conversationHistory : list Message.t) (content : string) : M string :=
  match LLMApiKeySchema_safeParse env llmApiKey with
  | ParseFailure message => throw (JsError (invalidApiKeyConfiguration message))
  | ParseSuccess data =>
      let messages := chatMessages conversationHistory content in
      let! apiKey := lift (decrypt env (ParsedKey.secretKey data)) in
      let! extraHeaders :=
        lift (decryptAndParseExtraHeaders env (ParsedKey.extraHeaders data)) in
      let! completion :=
        call_fetchLLMCompletion env
          (completion_params data apiKey extraHeaders messages) in
      ret (match completion with
           | CompletionString s => s
           | CompletionOther => noCompletionResponse
           end)
  end.

(** The value of [assistantResponse] in [sendMessage]: the completion when
    the project has a credential, with the [catch] branch turning anything
    thrown into a reply; the onboarding text when it has none.  The
    [console.error] of the [catch] branch writes to the log only. *)
Definition assistantResponse (env : Env) (llmApiKey : option LlmApiKeys.t)
    (conversationHistory : list Message.t) (content : string) : M string :=
  match llmApiKey with
  | Some llmApiKey =>
      try_catch (completion_attempt env llmApiKey conversationHistory content)
        (fun error => ret (providerErrorResponse (error_message error)))
  | None => ret (onboardingResponse content)
  end.

Module conversationsRouter.

Definition all_query (ctx : Ctx) (input : ProjectInput.t) :
    M (list ConversationSummary.t) :=
  let! conversations :=
    conversation_findMany_include (ProjectInput.projectId input)
      (session_user_id ctx) in
  ret (map
         (fun conv =>
            ConversationSummary.mk
              (Conversation.id (ConversationWithInclude.row conv))
              (Conversation.createdAt (ConversationWithInclude.row conv))
              (Conversation.updatedAt (ConversationWithInclude.row conv))
              (ConversationWithInclude._count_messages conv)
              (js_or_null (js_index (ConversationWithInclude.messages conv) 0)))
         conversations).

Definition byId_query (ctx : Ctx) (input : GetConversationInput.t) :
    M ConversationDetail.t :=
  let! conversation :=
    conversation_findFirst_include (GetConversationInput.conversationId input)
      (GetConversationInput.projectId input) (session_user_id ctx) in
  match conversation with
  | None => throw (TRPCError NOT_FOUND conversationNotFound)
  | Some conversation => ret conversation
  end.

Definition create_mutation (env : Env) (ctx : Ctx) (input : ProjectInput.t) :
    M Conversation.t :=
  conversation_create env (ProjectInput.projectId input) (session_user_id ctx).

Definition sendMessage_mutation (env : Env) (ctx : Ctx)
    (input : SendMessageInput.t) : M SendMessageResult.t :=
  let! conversation :=
    conversation_findFirst (SendMessageInput.conversationId input)
      (SendMessageInput.projectId input) (session_user_id ctx) in
  match conversation with
  | None => throw (TRPCError NOT_FOUND conversationNotFound)
  | Some _ =>
      let! userMessage :=
        message_create env (SendMessageInput.conversationId input) USER
          (SendMessageInput.content input) in
      let! conversationHistory :=
        message_findMany (SendMessageInput.conversationId input) asc 20 in
      let! llmApiKey := llmApiKeys_findFirst (SendMessageInput.projectId input) in
      let! assistantResponse :=
        assistantResponse env llmApiKey conversationHistory
          (SendMessageInput.content input) in
      let! assistantMessage :=
        message_create env (SendMessageInput.conversationId input) ASSISTANT
          assistantResponse in
      let! updatedAt := read_clock env in
      let! _ := conversation_update (SendMessageInput.conversationId input) updatedAt in
      ret (SendMessageResult.mk userMessage assistantMessage)
  end.

Definition all (env : Env) := protectedProjectProcedure env ProjectSchema all_query.

Definition byId (env : Env) :=
  protectedProjectProcedure env GetConversationSchema byId_query.

Definition create (env : Env) :=
  protectedProjectProcedure env CreateConversationSchema (create_mutation env).

Definition sendMessage (env : Env) :=
  protectedProjectProcedure env SendMessageSchema (sendMessage_mutation env).

End conversationsRouter.

(** ** Vocabulary of the statements *)

(** The order a query asks for, as a relation on rows. *)
Definition ordered {A} (key : A -> Z) (o : SortOrder) (x y : A) : Prop :=
  match o with
  | asc => key x <= key y
  | desc => key y <= key x
  end.

(** [needle] occurs in [hay]. *)
Definition contains (needle hay : string) : Prop :=
  exists before after, hay = before +:+ needle +:+ after.

(** No stored timestamp lies in the future of the world's clock. *)
Record timestamps_in_past (w : World) : Prop := mk_timestamps_in_past {
  conversations_in_past :
    Forall (fun c => Conversation.createdAt c <= now w
                     /\ Conversation.updatedAt c <= now w)
      (conversation (db w));
  messages_in_past :
    Forall (fun m => Message.createdAt m <= now w) (message (db w))
}.

(** [x] is what [all] reports as the last message of a conversation whose
    messages are [ms]: [null] when there is none, otherwise one of them that
    no other was created after. *)
Definition is_last_message (ms : list Message.t) (x : Nullable Message.t) : Prop :=
  match x with
  | undefined => False
  | null => ms = []
  | defined m => m ∈ ms /\ Forall (fun m' => Message.createdAt m' <= Message.createdAt m) ms
  end.

(** The row [message.create] inserts first in [sendMessage] from world [w]. *)
Definition sent_userMessage (env : Env) (input : SendMessageInput.t)
    (w : World) : Message.t :=
  Message.mk (cuid env (ids_issued w))
    (now w + Z.of_N (elapsed env (clock_reads w)))
    (SendMessageInput.conversationId input) USER (SendMessageInput.content input).

(** The database once that row is stored. *)
Definition db_after_userMessage (env : Env) (input : SendMessageInput.t)
    (w : World) : Db :=
  with_rows (db w) (conversation (db w))
    (message (db w) ++ [sent_userMessage env input w]).

(** The history [sendMessage] then loads: [orderBy: { createdAt: "asc" }],
    [take: 20]. *)
Definition loaded_history (env : Env) (input : SendMessageInput.t)
    (w : World) : list Message.t :=
  select_messages (db_after_userMessage env input w)
    (SendMessageInput.conversationId input) asc 20.

(** The reply row [sendMessage] stores after the user's, and the time it
    then gives the conversation. *)
Definition sent_assistantMessage (env : Env) (input : SendMessageInput.t)
    (w : World) (reply : string) : Message.t :=
  Message.mk (cuid env (S (ids_issued w)))
    (Message.createdAt (sent_userMessage env input w)
     + Z.of_N (elapsed env (S (clock_reads w))))
    (SendMessageInput.conversationId input) ASSISTANT reply.

Definition sent_updatedAt (env : Env) (input : SendMessageInput.t)
    (w : World) : Z :=
  Message.createdAt (sent_assistantMessage env input w EmptyString)
  + Z.of_N (elapsed env (S (S (clock_reads w)))).

(** The JSON object a client sends to [sendMessage]. *)
Definition sendMessage_request (projectId conversationId content : string) :
    gmap string Json :=
  {[ "projectId" := JString projectId;
     "conversationId" := JString conversationId;
     "content" := JString content ]}.

(** The opening of the onboarding reply, with the content quoted. *)
Definition onboardingGreeting (content : string) : string :=
  "Hello! I received your message: " +:+ dquote +:+ content +:+ dquote +:+ ".".

Definition errorPhrase : string := "I'm sorry, but I encountered an error".

(** The entry of [all] for conversation [c]. *)
Definition summary_of (d : Db) (c : Conversation.t) : ConversationSummary.t :=
  ConversationSummary.mk (Conversation.id c) (Conversation.createdAt c)
    (Conversation.updatedAt c)
    (length (messages_of (Conversation.id c) (message d)))
    (js_or_null
       (js_index
          (take 1 (store_orderBy (tie_message d) Message.createdAt desc
                     (messages_of (Conversation.id c) (message d)))) 0)).

(** Entry [r] of the listing describes conversation [c]: its identity and
    timestamps, the number of its messages, and the last of them. *)
Definition summarizes (d : Db) (c : Conversation.t)
    (r : ConversationSummary.t) : Prop :=
  ConversationSummary.id r = Conversation.id c
  /\ ConversationSummary.createdAt r = Conversation.createdAt c
  /\ ConversationSummary.updatedAt r = Conversation.updatedAt c
  /\ ConversationSummary.messageCount r
     = length (messages_of (Conversation.id c) (message d))
  /\ is_last_message (messages_of (Conversation.id c) (message d))
       (ConversationSummary.lastMessage r).

(** The result and the trace of a computation run from the empty world. *)
Definition outcome_of {A} (m : M A) : (Exn + A) * list Event :=
  let r := m (mkWorld (mkDb [] [] []) 0 0 0 []) in
  (fst r, trace (snd r)).

(** What the claim about the context asks for: the [n] rows created last,
    oldest first. *)
Definition most_recent (n : nat) (ms : list Message.t) : list Message.t :=
  let sorted := orderBy Message.createdAt asc ms in
  drop (length sorted - n) sorted.

(** ** Store invariants and the world a send leaves *)

(** [messages_conversation_id_fkey]: every message belongs to a stored
    conversation. *)
Definition referential_integrity (d : Db) : Prop :=
  Forall
    (fun m => Message.conversationId m ∈ Conversation.id <$> conversation d)
    (message d).

(** What identifies a conversation row and its owner: everything but
    [updatedAt]. *)
Definition conversation_identity (c : Conversation.t) :
    string * Z * string * string :=
  (Conversation.id c, Conversation.createdAt c, Conversation.userId c,
   Conversation.projectId c).

(** The world after a send that found its conversation, for the reply and
    the events of the reply step. *)
Definition world_after_send (env : Env) (ctx : Ctx)
    (input : SendMessageInput.t) (w : World) (reply : string)
    (evs : list Event) : World :=
  mkWorld
    (with_rows (db w)
       (set_updatedAt (SendMessageInput.conversationId input)
          (sent_updatedAt env input w) <$> conversation (db w))
       (message (db w)
        ++ [sent_userMessage env input w;
            sent_assistantMessage env input w reply]))
    (sent_updatedAt env input w) (3 + clock_reads w) (2 + ids_issued w)
    (trace w
     ++ [Ev_conversation_findFirst (SendMessageInput.conversationId input)
           (SendMessageInput.projectId input) (session_user_id ctx);
         Ev_message_create (sent_userMessage env input w);
         Ev_message_findMany (SendMessageInput.conversationId input);
         Ev_llmApiKeys_findFirst (SendMessageInput.projectId input)]
     ++ evs
     ++ [Ev_message_create (sent_assistantMessage env input w reply);
         Ev_conversation_update (SendMessageInput.conversationId input)
           (sent_updatedAt env input w)]).

(** The text the reply step of a send from world [w] produces: a completion,
    an apology or the onboarding text. *)
Definition reply_text (env : Env) (input : SendMessageInput.t) (w : World) :
    string :=
  match fst (outcome_of
               (assistantResponse env
                  (newest_llmApiKey (db w) (SendMessageInput.projectId input))
                  (loaded_history env input w)
                  (SendMessageInput.content input))) with
  | inr reply => reply
  | inl _ => EmptyString
  end.

(** The events of that reply step: the provider call, if one is made. *)
Definition reply_events (env : Env) (input : SendMessageInput.t) (w : World) :
    list Event :=
  snd (outcome_of
         (assistantResponse env
            (newest_llmApiKey (db w) (SendMessageInput.projectId input))
            (loaded_history env input w)
            (SendMessageInput.content input))).

(** The world a send leaves when the store refuses the user's message: an
    identifier and a clock reading are used, nothing is stored. *)
Definition world_user_rejected (env : Env) (ctx : Ctx)
    (input : SendMessageInput.t) (w : World) : World :=
  mkWorld (db w) (Message.createdAt (sent_userMessage env input w))
    (1 + clock_reads w) (1 + ids_issued w)
    (trace w
     ++ [Ev_conversation_findFirst (SendMessageInput.conversationId input)
           (SendMessageInput.projectId input) (session_user_id ctx);
         Ev_message_create (sent_userMessage env input w)]).

(** The world a send leaves when the store refuses the reply: the user's
    message is stored, the reply is not, the conversation is not updated. *)
Definition world_reply_rejected (env : Env) (ctx : Ctx)
    (input : SendMessageInput.t) (w : World) (reply : string)
    (evs : list Event) : World :=
  mkWorld (db_after_userMessage env input w)
    (Message.createdAt (sent_assistantMessage env input w reply))
    (2 + clock_reads w) (2 + ids_issued w)
    (trace w
     ++ [Ev_conversation_findFirst (SendMessageInput.conversationId input)
           (SendMessageInput.projectId input) (session_user_id ctx);
         Ev_message_create (sent_userMessage env input w);
         Ev_message_findMany (SendMessageInput.conversationId input);
         Ev_llmApiKeys_findFirst (SendMessageInput.projectId input)]
     ++ evs
     ++ [Ev_message_create (sent_assistantMessage env input w reply)]).

(** The events that are calls of the provider. *)
Definition is_provider_call (e : Event) : Prop :=
  match e with
  | Ev_fetchLLMCompletion _ => True
  | _ => False
  end.

#[global] Instance is_provider_call_dec e : Decision (is_provider_call e).
Proof. destruct e; simpl; apply _. Defined.

(** The row [create] stores from world [w]. *)
Definition created_conversation (env : Env) (ctx : Ctx)
    (input : ProjectInput.t) (w : World) : Conversation.t :=
  Conversation.mk (cuid env (ids_issued w))
    (now w + Z.of_N (elapsed env (clock_reads w)))
    (now w + Z.of_N (elapsed env (clock_reads w)))
    (session_user_id ctx) (ProjectInput.projectId input).

(** ** The chat form: [ChatView.tsx] *)

Module ChatView.

Record Props := mkProps { projectId : string; conversationId : string }.

(** The state the handlers read: the text typed, and whether a send is in
    flight ([sendMessage.isLoading]). *)
Record State := mkState { input : string; isLoading : bool }.

(** [handleSubmit]: the request handed to [sendMessage.mutate], if any.
    [trim] is [String.prototype.trim]; the empty string is the only falsy
    string. *)
Definition handleSubmit (trim : string -> string) (props : Props)
    (st : State) : option (gmap string Json) :=
  let trimmedInput := trim (input st) in
  if bool_decide (trimmedInput = EmptyString) || isLoading st then None
  else Some (sendMessage_request (projectId props) (conversationId props)
               trimmedInput).

(** [handleKeyDown]: Enter without Shift submits. *)
Definition handleKeyDown (trim : string -> string) (props : Props)
    (st : State) (key : string) (shiftKey : bool) : option (gmap string Json) :=
  if bool_decide (key = "Enter") && negb shiftKey
  then handleSubmit trim props st
  else None.

(** The [disabled] attribute of the submit button. *)
Definition submitDisabled (trim : string -> string) (st : State) : bool :=
  bool_decide (trim (input st) = EmptyString) || isLoading st.

End ChatView.

(** ** The sidebar: [ConversationList.tsx]

    [slice] and [length] count UTF-16 code units, so the texts shown are
    lists of code units here. *)

Module ConversationList.

(** The code units of a literal of the source, all of them ASCII. *)
Definition lit (s : string) : list N :=
  N_of_ascii <$> list_ascii_of_string s.

Record LastMessage := mkLastMessage {
  content : list N;
  sender : MessageSender
}.

(** The field of a listed conversation the two functions read. *)
Record Item := mkItem { lastMessage : Nullable LastMessage }.

(** [content.slice(0, n) + (content.length > n ? "..." : "")] *)
Definition ellipsize (n : nat) (content : list N) : list N :=
  take n content ++ (if decide (n < length content)%nat then lit "..." else []).

Definition getConversationPreview (conversation : Item) : list N :=
  match lastMessage conversation with
  | defined m => ellipsize 50 (content m)
  | _ => lit "No messages yet"
  end.

Definition getConversationTitle (conversation : Item) : list N :=
  match lastMessage conversation with
  | defined m =>
      if decide (sender m = USER) then ellipsize 30 (content m)
      else lit "New Conversation"
  | _ => lit "New Conversation"
  end.

End ConversationList.

(** ** Sample data: one user, one project, one conversation *)

Module Sample.

Definition alice : Ctx := mkCtx "alice".
Definition mallory : Ctx := mkCtx "mallory".

Definition conv1 : Conversation.t := Conversation.mk "c1" 10 10 "alice" "p1".
Definition conv2 : Conversation.t := Conversation.mk "c2" 20 40 "alice" "p1".
Definition conv3 : Conversation.t := Conversation.mk "c3" 30 30 "mallory" "p1".

Definition key1 : LlmApiKeys.t :=
  LlmApiKeys.mk "k1" 5 "p1" "openai" "openai" "sealed" None None None.

(** [n] earlier messages of [c1], created at times 1, 2, ..., n; the odd
    ones are the user's. *)
Definition seeded (n : nat) : list Message.t :=
  (fun i =>
     Message.mk ("m" +:+ pretty i) (Z.of_nat i) "c1"
       (if Nat.odd i then USER else ASSISTANT) ("turn " +:+ pretty i))
  <$> seq 1 n.

(** Identifiers are issued as [id0], [id1], ... *)
Definition ids (n : nat) : string := "id" +:+ pretty n.

Lemma has_nul_pretty_N_go x s : has_nul (pretty_N_go x s) = has_nul s.
Proof.
  revert s. induction (N.lt_wf_0 x) as [x _ IH]. intros s.
  destruct (decide (x = 0)%N) as [->|Hx]; [by rewrite pretty_N_go_0|].
  rewrite pretty_N_go_step by lia.
  rewrite IH by (apply N.div_lt; lia).
  unfold has_nul. cbn [list_ascii_of_string existsb].
  rewrite bool_decide_eq_false_2; [done|].
  unfold pretty_N_char. by repeat case_match.
Qed.

Lemma ids_no_nul n : has_nul (ids n) = false.
Proof.
  unfold ids, pretty, pretty_nat, pretty, pretty_N.
  case_decide; [reflexivity|].
  change (has_nul (pretty_N_go (N.of_nat n) EmptyString) = false).
  by rewrite has_nul_pretty_N_go.
Qed.

(** An environment whose credential always decodes and whose provider always
    answers with [outcome]; the clock moves one millisecond per reading. *)
Definition env (outcome : Exn + Completion) : Env :=
  mkEnv
    (fun k =>
       ParseSuccess
         (ParsedKey.mk (LlmApiKeys.provider k) (LlmApiKeys.adapter k)
            (LlmApiKeys.secretKey k) (LlmApiKeys.baseURL k)
            (LlmApiKeys.extraHeaders k) (LlmApiKeys.config k)))
    (fun secret => inr ("plain:" +:+ secret))
    (fun _ => inr None)
    (fun _ => outcome)
    ids
    (fun _ => 1%N)
    (fun _ => "invalid input")
    ids_no_nul.

Definition world (messages : list Message.t) (keys : list LlmApiKeys.t) : World :=
  mkWorld (mkDb [conv1; conv2; conv3] messages keys) 100 0 0 [].

Definition empty_world : World := mkWorld (mkDb [] [] []) 0 0 0 [].

Definition send (projectId conversationId content : string) : SendMessageInput.t :=
  SendMessageInput.mk projectId conversationId content.

End Sample.

(** Further sample data: environments in which the credential is of no use,
    and a [trim] for the chat form. *)
Module SampleMore.

(** The schema rejects every credential. *)
Definition env_invalid : Env :=
  mkEnv (fun _ => ParseFailure "secretKey: Required")
    (fun secret => inr secret) (fun _ => inr None)
    (fun _ => inr (CompletionString "unreachable"))
    Sample.ids (fun _ => 1%N) (fun _ => "invalid input") Sample.ids_no_nul.

(** Decryption throws something that is not an [Error]. *)
Definition env_sealed : Env :=
  mkEnv (LLMApiKeySchema_safeParse (Sample.env (inr CompletionOther)))
    (fun _ => inl NonError) (fun _ => inr None)
    (fun _ => inr (CompletionString "unreachable"))
    Sample.ids (fun _ => 1%N) (fun _ => "invalid input") Sample.ids_no_nul.

(** A text with the character NUL in it. *)
Definition nul : string := String "000"%char EmptyString.
Definition poisoned : string := "a" +:+ nul +:+ "b".

(** The clock does not move between readings. *)
Definition env_instant : Env :=
  mkEnv (LLMApiKeySchema_safeParse (Sample.env (inr CompletionOther)))
    (fun secret => inr secret) (fun _ => inr None)
    (fun _ => inr (CompletionString "pong"))
    Sample.ids (fun _ => 0%N) (fun _ => "invalid input") Sample.ids_no_nul.

(** A store with one reply in [c1], created at the present of the clock,
    that returns the user's messages before the assistant's among messages of
    one creation time. *)
Definition tied_world : World :=
  mkWorld
    (mkStore [Sample.conv1] [Message.mk "m1" 100 "c1" ASSISTANT "earlier reply"]
       [Sample.key1] (fun _ => 0)
       (fun m => if decide (Message.sender m = USER) then 0 else 1)
       (fun _ => 0))
    100 0 0 [].

(** [trim] for texts padded with spaces only. *)
Fixpoint trim_start (s : string) : string :=
  match s with
  | String " " rest => trim_start rest
  | _ => s
  end.

Definition string_rev (s : string) : string :=
  string_of_list_ascii (rev (list_ascii_of_string s)).

Definition trim (s : string) : string :=
  string_rev (trim_start (string_rev (trim_start s))).

End SampleMore.

(** * Properties *)

(** ** Sorting *)

Section sorting.
Context {A : Type} (key : A -> Z).

Lemma insert_by_Permutation (le : A -> A -> bool) x l :
  insert_by le x l ≡ₚ x :: l.
Proof.
  induction l as [|y l IH]; simpl; [done|].
  destruct (le x y); [done|].
  rewrite IH. apply Permutation_swap.
Qed.

Lemma sort_by_Permutation (le : A -> A -> bool) l : sort_by le l ≡ₚ l.
Proof.
  induction l as [|x l IH]; simpl; [done|].
  unfold sort_by in IH. by rewrite insert_by_Permutation, IH.
Qed.

Lemma orderBy_Permutation o l : orderBy key o l ≡ₚ l.
Proof. apply sort_by_Permutation. Qed.

Lemma orderBy_length o l : length (orderBy key o l) = length l.
Proof. by rewrite orderBy_Permutation. Qed.

Lemma key_le_ordered o x y : key_le key o x y = true <-> ordered key o x y.
Proof. unfold key_le, ordered. destruct o; apply Z.leb_le. Qed.

Lemma key_le_total o x y : key_le key o x y = false -> ordered key o y x.
Proof. unfold key_le, ordered. destruct o; rewrite Z.leb_gt; lia. Qed.

Lemma ordered_trans o x y z :
  ordered key o x y -> ordered key o y z -> ordered key o x z.
Proof. unfold ordered. destruct o; lia. Qed.

Lemma insert_by_StronglySorted o x l :
  StronglySorted (ordered key o) l ->
  StronglySorted (ordered key o) (insert_by (key_le key o) x l).
Proof.
  induction 1 as [|y l Hl IH Hy]; simpl.
  - repeat constructor.
  - destruct (key_le key o x y) eqn:Hxy.
    + apply key_le_ordered in Hxy. constructor; [by constructor|].
      constructor; [done|].
      eapply Forall_impl; [exact Hy|].
      intros z Hz. by eapply ordered_trans.
    + apply key_le_total in Hxy. constructor; [done|].
      rewrite insert_by_Permutation. by constructor.
Qed.

Lemma orderBy_StronglySorted o l :
  StronglySorted (ordered key o) (orderBy key o l).
Proof.
  induction l as [|x l IH]; simpl; [constructor|].
  by apply insert_by_StronglySorted.
Qed.

Lemma store_orderBy_Permutation tie o l : store_orderBy tie key o l ≡ₚ l.
Proof. unfold store_orderBy, orderBy. by rewrite !sort_by_Permutation. Qed.

Lemma store_orderBy_length tie o l : length (store_orderBy tie key o l) = length l.
Proof. by rewrite store_orderBy_Permutation. Qed.

Lemma store_orderBy_StronglySorted tie o l :
  StronglySorted (ordered key o) (store_orderBy tie key o l).
Proof. apply orderBy_StronglySorted. Qed.

(** In a sorted list, a row with a key above all others is the last one,
    however the rows of equal key are arranged. *)
Lemma sorted_greatest_last h l y :
  StronglySorted (ordered key asc) h ->
  h ≡ₚ l ++ [y] ->
  Forall (fun x => key x < key y) l ->
  exists h0,
    h = h0 ++ [y] /\ h0 ≡ₚ l /\ StronglySorted (ordered key asc) h0.
Proof.
  intros Hsorted Hperm Hless.
  assert (Hy : y ∈ h) by (rewrite Hperm, elem_of_app; right; left).
  apply list_elem_of_split in Hy. destruct Hy as (h1 & h2 & ->).
  assert (Hrest : h1 ++ h2 ≡ₚ l).
  { apply (Permutation_cons_inv (a := y)).
    rewrite Permutation_middle, Hperm.
    symmetry. apply Permutation_cons_append. }
  pose proof (StronglySorted_app_1_l _ _ _ Hsorted) as Hs1.
  pose proof (StronglySorted_app_1_r _ _ _ Hsorted) as Hs2.
  apply StronglySorted_inv in Hs2. destruct Hs2 as [_ Hafter].
  destruct h2 as [|z h2].
  - exists h1. rewrite app_nil_r in Hrest. by split.
  - exfalso. apply Forall_cons in Hafter. destruct Hafter as [Hyz _].
    assert (Hz : z ∈ l) by (rewrite <- Hrest, elem_of_app; right; left).
    pose proof (proj1 (Forall_forall _ _) Hless z Hz) as Hlt.
    simpl in Hyz, Hlt. lia.
Qed.

End sorting.

(** ** Lookups *)

Lemma lookup_conversation_Some d id projectId userId c :
  lookup_conversation d id projectId userId = Some c ->
  c ∈ conversation d /\ conversation_where id projectId userId c.
Proof.
  unfold lookup_conversation. intros H.
  apply head_Some_elem_of, list_elem_of_filter in H. tauto.
Qed.

Lemma lookup_conversation_None d id projectId userId :
  lookup_conversation d id projectId userId = None <->
  forall c, c ∈ conversation d -> ~ conversation_where id projectId userId c.
Proof.
  unfold lookup_conversation. rewrite head_None. split.
  - intros H c Hc Hw. by eapply filter_nil_not_elem_of.
  - intros H. destruct (filter _ _) as [|c l] eqn:E; [done|].
    assert (Hc : c ∈ filter (conversation_where id projectId userId) (conversation d))
      by (rewrite E; left).
    apply list_elem_of_filter in Hc. destruct Hc as [Hw Hc]. by destruct (H c).
Qed.

Lemma lookup_conversation_id d id projectId userId c :
  lookup_conversation d id projectId userId = Some c ->
  id ∈ Conversation.id <$> conversation d.
Proof.
  intros H. apply lookup_conversation_Some in H. destruct H as [Hc [Hid _]].
  apply list_elem_of_fmap. exists c. by rewrite Hid.
Qed.

(** Giving the rows with identifier [id] a new [updatedAt] changes neither
    which row the lookup finds nor anything else of that row. *)
Lemma lookup_conversation_set_updatedAt d msgs id t id' projectId userId :
  lookup_conversation
    (with_rows d (set_updatedAt id t <$> conversation d) msgs) id' projectId
    userId
  = set_updatedAt id t <$> lookup_conversation d id' projectId userId.
Proof.
  unfold lookup_conversation. simpl.
  induction (conversation d) as [|c l IH]; [done|].
  assert (Hiff : conversation_where id' projectId userId (set_updatedAt id t c)
                 <-> conversation_where id' projectId userId c).
  { unfold set_updatedAt, conversation_where. by destruct (decide _). }
  rewrite fmap_cons, !filter_cons.
  destruct (decide (conversation_where id' projectId userId c)) as [Hc|Hc];
    destruct (decide _) as [Hc'|Hc']; try tauto; done.
Qed.

(** ** Running the handlers *)

Lemma add_events_nil w : add_events w [] = w.
Proof. destruct w. unfold add_events. simpl. by rewrite app_nil_r. Qed.

Lemma add_events_app w evs1 evs2 :
  add_events (add_events w evs1) evs2 = add_events w (evs1 ++ evs2).
Proof. unfold add_events. simpl. by rewrite app_assoc. Qed.

Lemma chatMessages_eq history content :
  chatMessages history content
  = systemTurn :: (historyTurn <$> history) ++ [userTurn content].
Proof.
  unfold chatMessages, push.
  assert (H : forall acc, fold_left (fun messages msg => messages ++ [historyTurn msg])
                            history acc = acc ++ (historyTurn <$> history)).
  { induction history as [|m l IH]; intros acc; simpl.
    - by rewrite app_nil_r.
    - by rewrite IH, <- app_assoc. }
  by rewrite H.
Qed.

(** The parameters of the provider call, when the credential decodes. *)
Lemma completion_attempt_calls env key history content w data apiKey headers :
  LLMApiKeySchema_safeParse env key = ParseSuccess data ->
  decrypt env (ParsedKey.secretKey data) = inr apiKey ->
  decryptAndParseExtraHeaders env (ParsedKey.extraHeaders data) = inr headers ->
  let params :=
    completion_params data apiKey headers (chatMessages history content) in
  completion_attempt env key history content w
  = (match fetchLLMCompletion env params with
     | inl e => inl e
     | inr (CompletionString s) => inr s
     | inr CompletionOther => inr noCompletionResponse
     end, add_events w [Ev_fetchLLMCompletion params]).
Proof.
  intros Hparse Hkey Hheaders params. subst params.
  unfold completion_attempt. rewrite Hparse.
  unfold bind, lift, call_fetchLLMCompletion, bind, emit, lift, ret.
  rewrite Hkey, Hheaders.
  destruct (fetchLLMCompletion env _) as [e|[s|]]; reflexivity.
Qed.

(** The ways the attempt throws before the provider is reached. *)
Lemma completion_attempt_invalid_key env key history content w message :
  LLMApiKeySchema_safeParse env key = ParseFailure message ->
  completion_attempt env key history content w
  = (inl (JsError (invalidApiKeyConfiguration message)), w).
Proof. intros Hparse. unfold completion_attempt. by rewrite Hparse. Qed.

Lemma completion_attempt_decrypt_throws env key history content w data e :
  LLMApiKeySchema_safeParse env key = ParseSuccess data ->
  decrypt env (ParsedKey.secretKey data) = inl e ->
  completion_attempt env key history content w = (inl e, w).
Proof.
  intros Hparse Hkey. unfold completion_attempt. rewrite Hparse.
  unfold bind, lift. by rewrite Hkey.
Qed.

Lemma completion_attempt_headers_throw env key history content w data apiKey e :
  LLMApiKeySchema_safeParse env key = ParseSuccess data ->
  decrypt env (ParsedKey.secretKey data) = inr apiKey ->
  decryptAndParseExtraHeaders env (ParsedKey.extraHeaders data) = inl e ->
  completion_attempt env key history content w = (inl e, w).
Proof.
  intros Hparse Hkey Hheaders. unfold completion_attempt. rewrite Hparse.
  unfold bind, lift. by rewrite Hkey, Hheaders.
Qed.

(** The attempt reads nothing of the world and writes nothing but the trace:
    its outcome is the one from the empty world. *)
Lemma completion_attempt_frame env key history content w :
  completion_attempt env key history content w
  = (fst (outcome_of (completion_attempt env key history content)),
     add_events w (snd (outcome_of (completion_attempt env key history content)))).
Proof.
  unfold outcome_of, completion_attempt.
  destruct (LLMApiKeySchema_safeParse env key) as [data|message]; simpl.
  - unfold bind, lift, call_fetchLLMCompletion, bind, emit, lift, ret.
    destruct (decrypt env _) as [e|apiKey]; simpl;
      [by rewrite add_events_nil|].
    destruct (decryptAndParseExtraHeaders env _) as [e|headers]; simpl;
      [by rewrite add_events_nil|].
    destruct (fetchLLMCompletion env _) as [e|completion]; reflexivity.
  - unfold throw. simpl. by rewrite add_events_nil.
Qed.

(** The reply step never throws, whatever the provider does. *)
Lemma assistantResponse_frame env llmApiKey history content :
  exists reply evs,
    (forall w,
        assistantResponse env llmApiKey history content w
        = (inr reply, add_events w evs))
    /\ match llmApiKey with
       | None => reply = onboardingResponse content /\ evs = []
       | Some key =>
           evs = snd (outcome_of (completion_attempt env key history content))
           /\ match fst (outcome_of (completion_attempt env key history content)) with
              | inl e => reply = providerErrorResponse (error_message e)
              | inr s => reply = s
              end
       end.
Proof.
  destruct llmApiKey as [key|].
  - pose proof (completion_attempt_frame env key history content) as Hframe.
    destruct (fst (outcome_of (completion_attempt env key history content)))
      as [e|s].
    + exists (providerErrorResponse (error_message e)).
      eexists. split; [|split; reflexivity].
      intros w. unfold assistantResponse, try_catch. by rewrite Hframe.
    + exists s. eexists. split; [|split; reflexivity].
      intros w. unfold assistantResponse, try_catch. by rewrite Hframe.
  - exists (onboardingResponse content), []. split; [|done].
    intros w. unfold ret. by rewrite add_events_nil.
Qed.

(** *** The statements, one by one *)

Lemma conversation_findFirst_run id projectId userId w :
  conversation_findFirst id projectId userId w
  = (if has_nul id then inl (JsError nulByteRejected)
     else inr (lookup_conversation (db w) id projectId userId),
     add_events w [Ev_conversation_findFirst id projectId userId]).
Proof.
  unfold conversation_findFirst, bind, emit, get_db, ret, throw. simpl.
  by destruct (has_nul id).
Qed.

Lemma message_create_run env conversationId sender content w :
  let row :=
    Message.mk (cuid env (ids_issued w))
      (now w + Z.of_N (elapsed env (clock_reads w))) conversationId sender
      content in
  message_create env conversationId sender content w
  = if has_nul conversationId || has_nul content
    then (inl (JsError nulByteRejected),
          mkWorld (db w) (Message.createdAt row) (S (clock_reads w))
            (S (ids_issued w)) (trace w ++ [Ev_message_create row]))
    else if decide (conversationId ∈ Conversation.id <$> conversation (db w))
    then (inr row,
          mkWorld
            (with_rows (db w) (conversation (db w)) (message (db w) ++ [row]))
            (Message.createdAt row) (S (clock_reads w)) (S (ids_issued w))
            (trace w ++ [Ev_message_create row]))
    else (inl (JsError foreignKeyViolation),
          mkWorld (db w) (Message.createdAt row) (S (clock_reads w))
            (S (ids_issued w)) (trace w ++ [Ev_message_create row])).
Proof.
  intros row. subst row.
  unfold message_create, bind, fresh_id, read_clock, emit, get_db, put_db, ret,
    throw, add_events.
  simpl. destruct (has_nul conversationId || has_nul content); [done|].
  by destruct (decide _).
Qed.

Lemma conversation_update_run id updatedAt w :
  id ∈ Conversation.id <$> conversation (db w) ->
  conversation_update id updatedAt w
  = (inr tt,
     mkWorld
       (with_rows (db w) (set_updatedAt id updatedAt <$> conversation (db w))
          (message (db w)))
       (now w) (clock_reads w) (ids_issued w)
       (trace w ++ [Ev_conversation_update id updatedAt])).
Proof.
  intros Hid.
  unfold conversation_update, bind, emit, get_db, put_db, throw, add_events.
  simpl. by destruct (decide _).
Qed.

(** *** A send, outcome by outcome *)

(** The steps of a send up to the reply step, when the lookup finds the
    conversation and the store accepts the user's message. *)
Lemma sendMessage_mutation_steps env ctx input w c :
  has_nul (SendMessageInput.conversationId input) = false ->
  lookup_conversation (db w) (SendMessageInput.conversationId input)
    (SendMessageInput.projectId input) (session_user_id ctx) = Some c ->
  conversationsRouter.sendMessage_mutation env ctx input w
  = if has_nul (SendMessageInput.content input)
    then (inl (JsError nulByteRejected), world_user_rejected env ctx input w)
    else
      bind
        (assistantResponse env
           (newest_llmApiKey (db w) (SendMessageInput.projectId input))
           (loaded_history env input w) (SendMessageInput.content input))
        (fun reply =>
           let! assistantMessage :=
             message_create env (SendMessageInput.conversationId input)
               ASSISTANT reply in
           let! updatedAt := read_clock env in
           let! _ :=
             conversation_update (SendMessageInput.conversationId input)
               updatedAt in
           ret (SendMessageResult.mk (sent_userMessage env input w)
                  assistantMessage))
        (mkWorld (db_after_userMessage env input w)
           (Message.createdAt (sent_userMessage env input w))
           (1 + clock_reads w) (1 + ids_issued w)
           (trace w
            ++ [Ev_conversation_findFirst
                  (SendMessageInput.conversationId input)
                  (SendMessageInput.projectId input) (session_user_id ctx);
                Ev_message_create (sent_userMessage env input w);
                Ev_message_findMany (SendMessageInput.conversationId input);
                Ev_llmApiKeys_findFirst (SendMessageInput.projectId input)])).
Proof.
  intros Hid_nul Hfound.
  pose proof (lookup_conversation_id _ _ _ _ _ Hfound) as Hid.
  unfold conversationsRouter.sendMessage_mutation.
  unfold bind at 1. rewrite conversation_findFirst_run, Hid_nul, Hfound.
  unfold bind at 1. rewrite message_create_run, Hid_nul.
  cbn [orb add_events db now clock_reads ids_issued trace].
  destruct (has_nul (SendMessageInput.content input)).
  { unfold world_user_rejected, sent_userMessage. cbn [Message.createdAt].
    by rewrite <- app_assoc. }
  destruct (decide _) as [_|Hno]; [|done].
  unfold message_findMany, llmApiKeys_findFirst.
  unfold bind at 1. unfold bind at 1. unfold emit at 1.
  unfold bind at 1. unfold get_db at 1. unfold ret at 1.
  unfold bind at 1. unfold bind at 1. unfold emit at 1.
  unfold bind at 1. unfold get_db at 1. unfold ret at 1.
  unfold add_events. cbn [db now clock_reads ids_issued trace].
  unfold loaded_history, db_after_userMessage, sent_userMessage.
  cbn [Message.createdAt]. rewrite <- !app_assoc. reflexivity.
Qed.

(** From the reply on: the store accepts the reply or refuses it. *)
Lemma sendMessage_mutation_run env ctx input w c reply evs :
  has_nul (SendMessageInput.conversationId input) = false ->
  has_nul (SendMessageInput.content input) = false ->
  lookup_conversation (db w) (SendMessageInput.conversationId input)
    (SendMessageInput.projectId input) (session_user_id ctx) = Some c ->
  (forall w0,
      assistantResponse env
        (newest_llmApiKey (db w) (SendMessageInput.projectId input))
        (loaded_history env input w) (SendMessageInput.content input) w0
      = (inr reply, add_events w0 evs)) ->
  conversationsRouter.sendMessage_mutation env ctx input w
  = if has_nul reply
    then (inl (JsError nulByteRejected),
          world_reply_rejected env ctx input w reply evs)
    else (inr (SendMessageResult.mk (sent_userMessage env input w)
                 (sent_assistantMessage env input w reply)),
          world_after_send env ctx input w reply evs).
Proof.
  intros Hid_nul Hcontent Hfound Hreply.
  pose proof (lookup_conversation_id _ _ _ _ _ Hfound) as Hid.
  rewrite (sendMessage_mutation_steps env ctx input w c Hid_nul Hfound), Hcontent.
  unfold bind at 1. rewrite Hreply.
  unfold bind at 1. rewrite message_create_run, Hid_nul.
  cbn [orb add_events db now clock_reads ids_issued trace].
  destruct (has_nul reply).
  { unfold world_reply_rejected, sent_assistantMessage, sent_userMessage.
    cbn [Message.createdAt]. by rewrite <- !app_assoc. }
  unfold db_after_userMessage at 1. cbn [with_rows conversation].
  destruct (decide _) as [_|Hno]; [|done].
  unfold bind at 1. unfold read_clock at 1.
  cbn [db now clock_reads ids_issued trace].
  unfold bind at 1. rewrite conversation_update_run by exact Hid.
  unfold ret. cbn [db now clock_reads ids_issued trace].
  unfold world_after_send, sent_updatedAt, sent_assistantMessage,
    sent_userMessage, db_after_userMessage, with_rows.
  cbn [Message.createdAt conversation message llmApiKeys tie_conversation
       tie_message tie_llmApiKeys].
  rewrite <- !app_assoc. reflexivity.
Qed.

(** The reply step produces [reply_text] and leaves [reply_events]. *)
Lemma assistantResponse_reply env input w w0 :
  assistantResponse env
    (newest_llmApiKey (db w) (SendMessageInput.projectId input))
    (loaded_history env input w) (SendMessageInput.content input) w0
  = (inr (reply_text env input w), add_events w0 (reply_events env input w)).
Proof.
  destruct (assistantResponse_frame env
              (newest_llmApiKey (db w) (SendMessageInput.projectId input))
              (loaded_history env input w) (SendMessageInput.content input))
    as (reply & evs & Hreply & _).
  rewrite Hreply. unfold reply_text, reply_events, outcome_of.
  by rewrite Hreply.
Qed.

(** The reply step calls the provider at most once, and exactly when the
    project has a credential that decodes. *)
Lemma reply_events_cases env input w :
  match newest_llmApiKey (db w) (SendMessageInput.projectId input) with
  | None =>
      reply_events env input w = []
      /\ reply_text env input w
         = onboardingResponse (SendMessageInput.content input)
  | Some key =>
      (reply_events env input w = []
       /\ exists e,
            (forall w0,
                completion_attempt env key (loaded_history env input w)
                  (SendMessageInput.content input) w0 = (inl e, w0))
            /\ reply_text env input w = providerErrorResponse (error_message e))
      \/ exists data apiKey headers,
           LLMApiKeySchema_safeParse env key = ParseSuccess data
           /\ decrypt env (ParsedKey.secretKey data) = inr apiKey
           /\ decryptAndParseExtraHeaders env (ParsedKey.extraHeaders data)
              = inr headers
           /\ reply_events env input w
              = [Ev_fetchLLMCompletion
                   (completion_params data apiKey headers
                      (chatMessages (loaded_history env input w)
                         (SendMessageInput.content input)))]
           /\ reply_text env input w
              = match fetchLLMCompletion env
                        (completion_params data apiKey headers
                           (chatMessages (loaded_history env input w)
                              (SendMessageInput.content input))) with
                | inl e => providerErrorResponse (error_message e)
                | inr (CompletionString s) => s
                | inr CompletionOther => noCompletionResponse
                end
  end.
Proof.
  unfold reply_text, reply_events.
  destruct (newest_llmApiKey (db w) (SendMessageInput.projectId input))
    as [key|]; [|done].
  set (h := loaded_history env input w).
  set (content := SendMessageInput.content input).
  destruct (LLMApiKeySchema_safeParse env key) as [data|message] eqn:Hparse.
  2:{ left. unfold outcome_of, assistantResponse, try_catch.
      rewrite (completion_attempt_invalid_key _ _ _ _ _ _ Hparse).
      split; [done|]. eexists. split; [|reflexivity].
      intros w0. by apply completion_attempt_invalid_key. }
  destruct (decrypt env (ParsedKey.secretKey data)) as [e|apiKey] eqn:Hkey.
  { left. unfold outcome_of, assistantResponse, try_catch.
    rewrite (completion_attempt_decrypt_throws _ _ _ _ _ _ _ Hparse Hkey).
    split; [done|]. exists e. split; [|reflexivity].
    intros w0. by apply (completion_attempt_decrypt_throws _ _ _ _ _ data). }
  destruct (decryptAndParseExtraHeaders env (ParsedKey.extraHeaders data))
    as [e|headers] eqn:Hheaders.
  { left. unfold outcome_of, assistantResponse, try_catch.
    rewrite (completion_attempt_headers_throw _ _ _ _ _ _ _ _
               Hparse Hkey Hheaders).
    split; [done|]. exists e. split; [|reflexivity].
    intros w0.
    by apply (completion_attempt_headers_throw _ _ _ _ _ data apiKey). }
  right. exists data, apiKey, headers. split; [done|]. split; [done|].
  split; [done|].
  unfold outcome_of, assistantResponse, try_catch.
  rewrite (completion_attempt_calls _ _ _ _ _ _ _ _ Hparse Hkey Hheaders).
  by destruct (fetchLLMCompletion env _) as [e|[s|]].
Qed.

(** Every way a send can end. *)
Lemma sendMessage_mutation_outcome env ctx input w :
  let found :=
    lookup_conversation (db w) (SendMessageInput.conversationId input)
      (SendMessageInput.projectId input) (session_user_id ctx) in
  let looked_up :=
    add_events w
      [Ev_conversation_findFirst (SendMessageInput.conversationId input)
         (SendMessageInput.projectId input) (session_user_id ctx)] in
  (has_nul (SendMessageInput.conversationId input) = true
   /\ conversationsRouter.sendMessage_mutation env ctx input w
      = (inl (JsError nulByteRejected), looked_up))
  \/ (has_nul (SendMessageInput.conversationId input) = false
      /\ found = None
      /\ conversationsRouter.sendMessage_mutation env ctx input w
         = (inl (TRPCError NOT_FOUND conversationNotFound), looked_up))
  \/ (exists c,
        has_nul (SendMessageInput.conversationId input) = false
        /\ found = Some c
        /\ has_nul (SendMessageInput.content input) = true
        /\ conversationsRouter.sendMessage_mutation env ctx input w
           = (inl (JsError nulByteRejected),
              world_user_rejected env ctx input w))
  \/ (exists c,
        has_nul (SendMessageInput.conversationId input) = false
        /\ found = Some c
        /\ has_nul (SendMessageInput.content input) = false
        /\ has_nul (reply_text env input w) = true
        /\ conversationsRouter.sendMessage_mutation env ctx input w
           = (inl (JsError nulByteRejected),
              world_reply_rejected env ctx input w (reply_text env input w)
                (reply_events env input w)))
  \/ (exists c,
        has_nul (SendMessageInput.conversationId input) = false
        /\ found = Some c
        /\ has_nul (SendMessageInput.content input) = false
        /\ has_nul (reply_text env input w) = false
        /\ conversationsRouter.sendMessage_mutation env ctx input w
           = (inr (SendMessageResult.mk (sent_userMessage env input w)
                     (sent_assistantMessage env input w
                        (reply_text env input w))),
              world_after_send env ctx input w (reply_text env input w)
                (reply_events env input w))).
Proof.
  intros found looked_up. subst found looked_up.
  destruct (has_nul (SendMessageInput.conversationId input)) eqn:Hid_nul.
  { left. split; [done|].
    unfold conversationsRouter.sendMessage_mutation.
    unfold bind at 1. by rewrite conversation_findFirst_run, Hid_nul. }
  right.
  destruct (lookup_conversation (db w) (SendMessageInput.conversationId input)
              (SendMessageInput.projectId input) (session_user_id ctx))
    as [c|] eqn:Hfound.
  2:{ left. split; [done|]. split; [done|].
      unfold conversationsRouter.sendMessage_mutation.
      unfold bind at 1. by rewrite conversation_findFirst_run, Hid_nul, Hfound. }
  right.
  destruct (has_nul (SendMessageInput.content input)) eqn:Hcontent.
  { left. exists c. split; [done|]. split; [done|]. split; [done|].
    by rewrite (sendMessage_mutation_steps env ctx input w c Hid_nul Hfound),
      Hcontent. }
  right.
  pose proof (sendMessage_mutation_run env ctx input w c _ _ Hid_nul Hcontent
                Hfound (assistantResponse_reply env input w)) as Hrun.
  destruct (has_nul (reply_text env input w)) eqn:Hreply_nul.
  - left. exists c. by repeat split.
  - right. exists c. by repeat split.
Qed.

(** The send that goes through. *)
Lemma sendMessage_mutation_succeeds env ctx input w c :
  has_nul (SendMessageInput.conversationId input) = false ->
  has_nul (SendMessageInput.content input) = false ->
  has_nul (reply_text env input w) = false ->
  lookup_conversation (db w) (SendMessageInput.conversationId input)
    (SendMessageInput.projectId input) (session_user_id ctx) = Some c ->
  conversationsRouter.sendMessage_mutation env ctx input w
  = (inr (SendMessageResult.mk (sent_userMessage env input w)
            (sent_assistantMessage env input w (reply_text env input w))),
     world_after_send env ctx input w (reply_text env input w)
       (reply_events env input w)).
Proof.
  intros Hid_nul Hcontent Hreply_nul Hfound.
  by rewrite (sendMessage_mutation_run env ctx input w c _ _ Hid_nul Hcontent
                Hfound (assistantResponse_reply env input w)), Hreply_nul.
Qed.

(** *** Text without NUL *)

Lemma has_nul_append a b : has_nul (a +:+ b) = has_nul a || has_nul b.
Proof.
  unfold has_nul. induction a as [|x a IH]; simpl; [done|].
  by rewrite IH, orb_assoc.
Qed.

Lemma onboardingResponse_no_nul content :
  has_nul content = false -> has_nul (onboardingResponse content) = false.
Proof.
  intros H. unfold onboardingResponse. rewrite !has_nul_append, H.
  by vm_compute.
Qed.

Lemma providerErrorResponse_no_nul errorText :
  has_nul errorText = false -> has_nul (providerErrorResponse errorText) = false.
Proof.
  intros H. unfold providerErrorResponse. rewrite !has_nul_append, H.
  by vm_compute.
Qed.

(** ** Input validation *)

Lemma SendMessageSchema_accepts projectId conversationId content :
  content <> EmptyString ->
  SendMessageSchema (sendMessage_request projectId conversationId content)
  = Some (SendMessageInput.mk projectId conversationId content).
Proof.
  intros Hne.
  set (raw := sendMessage_request projectId conversationId content).
  assert (H1 : raw !! "projectId" = Some (JString projectId))
    by apply lookup_insert_eq.
  assert (H2 : raw !! "conversationId" = Some (JString conversationId)).
  { unfold raw, sendMessage_request.
    rewrite lookup_insert_ne by done. apply lookup_insert_eq. }
  assert (H3 : raw !! "content" = Some (JString content)).
  { unfold raw, sendMessage_request.
    rewrite !lookup_insert_ne by done. apply lookup_singleton_eq. }
  unfold SendMessageSchema. rewrite H1, H2, H3.
  unfold z_string_min. simpl.
  by destruct content as [|a content].
Qed.

Lemma SendMessageSchema_rejects_empty raw :
  raw !! "content" = Some (JString EmptyString) -> SendMessageSchema raw = None.
Proof.
  intros Hcontent. unfold SendMessageSchema. rewrite Hcontent.
  destruct (z_string (raw !! "projectId")); [|done]. simpl.
  destruct (z_string (raw !! "conversationId")); done.
Qed.

Lemma protectedProjectProcedure_accepts {I O} env schema
    (resolver : Ctx -> I -> M O) ctx raw input :
  schema raw = Some input ->
  protectedProjectProcedure env schema resolver ctx raw = resolver ctx input.
Proof. intros H. unfold protectedProjectProcedure. by rewrite H. Qed.

(** ** Texts *)

Lemma prefix_append a b c :
  String.prefix (a +:+ b) (a +:+ c) = String.prefix b c.
Proof.
  induction a as [|x a IH]; simpl; [done|].
  by destruct (ascii_dec x x).
Qed.

Lemma onboardingResponse_greeting content :
  String.prefix (onboardingGreeting content) (onboardingResponse content) = true.
Proof.
  unfold onboardingGreeting, onboardingResponse.
  rewrite !prefix_append. reflexivity.
Qed.

Lemma providerErrorResponse_contains errorText :
  contains errorPhrase (providerErrorResponse errorText)
  /\ contains errorText (providerErrorResponse errorText).
Proof.
  split.
  - exists EmptyString. eexists. unfold providerErrorResponse. reflexivity.
  - eexists. eexists. unfold providerErrorResponse. reflexivity.
Qed.

(** ** Time *)

Lemma sent_userMessage_createdAt_ge env input w :
  now w <= Message.createdAt (sent_userMessage env input w).
Proof. unfold sent_userMessage. simpl. lia. Qed.

Lemma sent_updatedAt_ge env input w : now w <= sent_updatedAt env input w.
Proof. unfold sent_updatedAt, sent_assistantMessage, sent_userMessage. simpl. lia. Qed.

Lemma empty_world_timestamps_in_past : timestamps_in_past Sample.empty_world.
Proof. by constructor. Qed.

Lemma create_mutation_run env ctx input w :
  let t := now w + Z.of_N (elapsed env (clock_reads w)) in
  let row :=
    Conversation.mk (cuid env (ids_issued w)) t t (session_user_id ctx)
      (ProjectInput.projectId input) in
  conversationsRouter.create_mutation env ctx input w
  = (inr row,
     mkWorld
       (with_rows (db w) (conversation (db w) ++ [row]) (message (db w)))
       t (S (clock_reads w)) (S (ids_issued w))
       (trace w ++ [Ev_conversation_create row])).
Proof. reflexivity. Qed.

(** Creating a conversation keeps every stored timestamp in the past. *)
Lemma create_mutation_timestamps_in_past env ctx input w :
  timestamps_in_past w ->
  timestamps_in_past (snd (conversationsRouter.create_mutation env ctx input w)).
Proof.
  intros [Hconvs Hmsgs]. rewrite create_mutation_run. constructor; simpl.
  - rewrite Forall_app. split.
    + eapply Forall_impl; [exact Hconvs|]. intros c [H1 H2]. simpl. lia.
    + repeat constructor; simpl; lia.
  - eapply Forall_impl; [exact Hmsgs|]. intros m Hm. simpl in *. lia.
Qed.

(** * The claims *)

(** C3, as amended.  A send that names a conversation by an identifier
    without NUL, no row of which matches all three of (conversation id,
    project id, caller id), fails with NOT_FOUND: the only statement issued
    is the lookup, so no message row is written and the conversation is not
    updated.  The same holds through the procedure for every JSON input the
    schema accepts as this send. *)
Theorem C3_send_unmatched_conversation_not_found env ctx input w :
  has_nul (SendMessageInput.conversationId input) = false ->
  Forall
    (fun c =>
       ~ conversation_where (SendMessageInput.conversationId input)
           (SendMessageInput.projectId input) (session_user_id ctx) c)
    (conversation (db w)) ->
  exists w',
    conversationsRouter.sendMessage_mutation env ctx input w
    = (inl (TRPCError NOT_FOUND conversationNotFound), w')
    /\ db w' = db w
    /\ trace w'
       = trace w
         ++ [Ev_conversation_findFirst (SendMessageInput.conversationId input)
               (SendMessageInput.projectId input) (session_user_id ctx)]
    /\ forall raw,
         SendMessageSchema raw = Some input ->
         conversationsRouter.sendMessage env ctx raw w
         = (inl (TRPCError NOT_FOUND conversationNotFound), w').
Proof.
  intros Hid_nul Hnone.
  assert (Hlookup :
    lookup_conversation (db w) (SendMessageInput.conversationId input)
      (SendMessageInput.projectId input) (session_user_id ctx) = None).
  { apply lookup_conversation_None. intros c Hc.
    by apply (proj1 (Forall_forall _ _) Hnone). }
  assert (Hrun :
    conversationsRouter.sendMessage_mutation env ctx input w
    = (inl (TRPCError NOT_FOUND conversationNotFound),
       add_events w
         [Ev_conversation_findFirst (SendMessageInput.conversationId input)
            (SendMessageInput.projectId input) (session_user_id ctx)])).
  { unfold conversationsRouter.sendMessage_mutation. unfold bind at 1.
    by rewrite conversation_findFirst_run, Hid_nul, Hlookup. }
  eexists. split; [exact Hrun|]. split_and!; try reflexivity.
  intros raw Hraw. unfold conversationsRouter.sendMessage.
  by rewrite (protectedProjectProcedure_accepts _ _ _ _ _ _ Hraw).
Qed.

Lemma C3_witness :
  exists w',
    conversationsRouter.sendMessage_mutation (Sample.env (inr CompletionOther))
      Sample.mallory (Sample.send "p1" "c1" "hello")
      (Sample.world (Sample.seeded 2) [])
    = (inl (TRPCError NOT_FOUND conversationNotFound), w')
    /\ db w' = db (Sample.world (Sample.seeded 2) []).
Proof.
  destruct (C3_send_unmatched_conversation_not_found
              (Sample.env (inr CompletionOther)) Sample.mallory
              (Sample.send "p1" "c1" "hello")
              (Sample.world (Sample.seeded 2) []))
    as (w' & Hrun & Hdb & _).
  - reflexivity.
  - compute_done.
  - exists w'. by split.
Defined.

(** C3 as it was stated fails for an identifier with a NUL in it.  No row
    matches such an identifier, the schema accepts it, and the send ends at
    the lookup with the store's error, not with NOT_FOUND. *)
Lemma C3_counterexample :
  Forall
    (fun c => ~ conversation_where SampleMore.poisoned "p1" "alice" c)
    (conversation (db (Sample.world (Sample.seeded 2) [])))
  /\ fst (conversationsRouter.sendMessage (Sample.env (inr CompletionOther))
            Sample.alice (sendMessage_request "p1" SampleMore.poisoned "hello")
            (Sample.world (Sample.seeded 2) []))
     = inl (JsError nulByteRejected)
  /\ fst (conversationsRouter.sendMessage (Sample.env (inr CompletionOther))
            Sample.alice (sendMessage_request "p1" SampleMore.poisoned "hello")
            (Sample.world (Sample.seeded 2) []))
     <> inl (TRPCError NOT_FOUND conversationNotFound).
Proof.
  split; [compute_done|].
  assert (H : fst (conversationsRouter.sendMessage
                     (Sample.env (inr CompletionOther)) Sample.alice
                     (sendMessage_request "p1" SampleMore.poisoned "hello")
                     (Sample.world (Sample.seeded 2) []))
              = inl (JsError nulByteRejected)) by (by vm_compute).
  split; [exact H|]. rewrite H. discriminate.
Qed.

(** C8. A send whose content is the empty string is rejected by the input
    schema with BAD_REQUEST before the resolver runs: the world is left as it
    was, trace included, so no lookup was made and no row written. *)
Theorem C8_empty_content_rejected_before_resolver env ctx raw w :
  raw !! "content" = Some (JString EmptyString) ->
  conversationsRouter.sendMessage env ctx raw w
  = (inl (TRPCError BAD_REQUEST (zodMessage env raw)), w).
Proof.
  intros Hcontent.
  unfold conversationsRouter.sendMessage, protectedProjectProcedure.
  by rewrite (SendMessageSchema_rejects_empty _ Hcontent).
Qed.

Lemma C8_witness :
  conversationsRouter.sendMessage (Sample.env (inr CompletionOther))
    Sample.alice (sendMessage_request "p1" "c1" EmptyString)
    (Sample.world (Sample.seeded 2) [Sample.key1])
  = (inl (TRPCError BAD_REQUEST "invalid input"),
     Sample.world (Sample.seeded 2) [Sample.key1]).
Proof.
  apply (C8_empty_content_rejected_before_resolver
           (Sample.env (inr CompletionOther)) Sample.alice
           (sendMessage_request "p1" "c1" EmptyString)).
  reflexivity.
Defined.

(** C2, as amended.  Sending non-empty content to a conversation that the
    lookup finds for the caller and the project, when neither the
    conversation identifier, nor the content, nor the text of the reply has a
    NUL in it, returns one USER message carrying the content and one
    ASSISTANT message carrying the reply; the two are the rows appended to
    the message table; and the conversation's [updatedAt] afterwards is not
    smaller than before, provided it was not ahead of the clock when the send
    began. *)
Theorem C2_send_returns_user_and_assistant env ctx projectId conversationId
    content w c :
  content <> EmptyString ->
  has_nul conversationId = false ->
  has_nul content = false ->
  has_nul (reply_text env (SendMessageInput.mk projectId conversationId content) w)
  = false ->
  lookup_conversation (db w) conversationId projectId (session_user_id ctx)
  = Some c ->
  exists userMessage assistantMessage w' c',
    conversationsRouter.sendMessage env ctx
      (sendMessage_request projectId conversationId content) w
    = (inr (SendMessageResult.mk userMessage assistantMessage), w')
    /\ (Message.sender userMessage = USER
        /\ Message.content userMessage = content
        /\ Message.conversationId userMessage = conversationId)
    /\ (Message.sender assistantMessage = ASSISTANT
        /\ Message.conversationId assistantMessage = conversationId)
    /\ message (db w') = message (db w) ++ [userMessage; assistantMessage]
    /\ lookup_conversation (db w') conversationId projectId (session_user_id ctx)
       = Some c'
    /\ (Conversation.updatedAt c <= now w ->
        Conversation.updatedAt c <= Conversation.updatedAt c').
Proof.
  intros Hne Hid_nul Hcontent Hreply_nul Hfound.
  set (input := SendMessageInput.mk projectId conversationId content) in *.
  pose proof (sendMessage_mutation_succeeds env ctx input w c Hid_nul Hcontent
                Hreply_nul Hfound) as Hrun.
  pose proof (sent_updatedAt_ge env input w) as Hnow.
  exists (sent_userMessage env input w),
    (sent_assistantMessage env input w (reply_text env input w)).
  eexists. exists (set_updatedAt conversationId (sent_updatedAt env input w) c).
  split.
  { unfold conversationsRouter.sendMessage.
    rewrite (protectedProjectProcedure_accepts _ _ _ _ _ input)
      by by apply SendMessageSchema_accepts.
    exact Hrun. }
  unfold world_after_send. cbn [db now].
  split; [done|]. split; [done|]. split; [done|]. split.
  { by rewrite lookup_conversation_set_updatedAt, Hfound. }
  intros Hc_past. unfold set_updatedAt. case_decide; [simpl; lia|done].
Qed.

Lemma C2_witness :
  exists userMessage assistantMessage w' c',
    conversationsRouter.sendMessage (Sample.env (inr (CompletionString "Hi!")))
      Sample.alice (sendMessage_request "p1" "c1" "Hello, how are you?")
      (Sample.world (Sample.seeded 2) [Sample.key1])
    = (inr (SendMessageResult.mk userMessage assistantMessage), w')
    /\ Message.sender userMessage = USER
    /\ Message.sender assistantMessage = ASSISTANT
    /\ message (db w')
       = Sample.seeded 2 ++ [userMessage; assistantMessage]
    /\ lookup_conversation (db w') "c1" "p1" "alice" = Some c'
    /\ 10 <= Conversation.updatedAt c'.
Proof.
  destruct (C2_send_returns_user_and_assistant
              (Sample.env (inr (CompletionString "Hi!"))) Sample.alice
              "p1" "c1" "Hello, how are you?"
              (Sample.world (Sample.seeded 2) [Sample.key1]) Sample.conv1)
    as (um & am & w' & c' & Hrun & (Hu & _) & (Ha & _) & Hmsgs & Hc' & Hlater).
  - discriminate.
  - reflexivity.
  - reflexivity.
  - by vm_compute.
  - reflexivity.
  - exists um, am, w', c'. split; [exact Hrun|]. split; [exact Hu|].
    split; [exact Ha|]. split; [exact Hmsgs|]. split; [exact Hc'|].
    apply Hlater. by vm_compute.
Defined.

(** C2 as it was stated fails in three ways, each for non-empty content sent
    to a conversation of the caller.  Content with a NUL in it: the store
    refuses the user's message, the send throws, returns no message and
    stores none.  A completion with a NUL in it: the store refuses the reply,
    the send throws after it stored the user's message alone.  A
    conversation whose [updatedAt] (500) is ahead of the clock (100): the
    send succeeds and sets it back to 103. *)
Lemma C2_counterexample :
  (SampleMore.poisoned <> EmptyString
   /\ lookup_conversation (db (Sample.world [] [Sample.key1])) "c1" "p1" "alice"
      = Some Sample.conv1
   /\ conversationsRouter.sendMessage
        (Sample.env (inr (CompletionString "Hi!"))) Sample.alice
        (sendMessage_request "p1" "c1" SampleMore.poisoned)
        (Sample.world [] [Sample.key1])
      = (inl (JsError nulByteRejected),
         world_user_rejected (Sample.env (inr (CompletionString "Hi!")))
           Sample.alice (Sample.send "p1" "c1" SampleMore.poisoned)
           (Sample.world [] [Sample.key1])))
  /\ (fst (conversationsRouter.sendMessage
             (Sample.env (inr (CompletionString SampleMore.poisoned)))
             Sample.alice (sendMessage_request "p1" "c1" "hello")
             (Sample.world [] [Sample.key1]))
      = inl (JsError nulByteRejected)
      /\ message (db (snd (conversationsRouter.sendMessage
                             (Sample.env
                                (inr (CompletionString SampleMore.poisoned)))
                             Sample.alice
                             (sendMessage_request "p1" "c1" "hello")
                             (Sample.world [] [Sample.key1]))))
         = [Message.mk "id0" 101 "c1" USER "hello"])
  /\ (exists result w',
        conversationsRouter.sendMessage
          (Sample.env (inr (CompletionString "Hi!"))) Sample.alice
          (sendMessage_request "p1" "c1" "hello")
          (mkWorld (mkDb [Conversation.mk "c1" 500 500 "alice" "p1"] [] [])
             100 0 0 [])
        = (inr result, w')
        /\ (Conversation.updatedAt <$> conversation (db w')) = [103]).
Proof.
  split; [|split].
  - split; [discriminate|]. split; by vm_compute.
  - split; by vm_compute.
  - do 2 eexists. split; [by vm_compute|]. by vm_compute.
Qed.

Lemma newest_llmApiKey_None d projectId :
  Forall (fun k => LlmApiKeys.projectId k <> projectId) (llmApiKeys d) ->
  newest_llmApiKey d projectId = None.
Proof.
  intros Hnone. unfold newest_llmApiKey.
  replace (filter _ (llmApiKeys d)) with (@nil LlmApiKeys.t); [done|].
  symmetry. induction Hnone as [|k l Hk Hl IH]; [done|].
  by rewrite filter_cons_False.
Qed.

Lemma messages_of_sent env input w reply :
  messages_of (SendMessageInput.conversationId input)
    (message (db w)
     ++ [sent_userMessage env input w; sent_assistantMessage env input w reply])
  = messages_of (SendMessageInput.conversationId input) (message (db w))
    ++ [sent_userMessage env input w; sent_assistantMessage env input w reply].
Proof.
  unfold messages_of. rewrite filter_app. f_equal.
  rewrite filter_cons_True by done. f_equal.
  by rewrite filter_cons_True by done.
Qed.

Lemma reply_text_onboarding env input w :
  newest_llmApiKey (db w) (SendMessageInput.projectId input) = None ->
  reply_text env input w = onboardingResponse (SendMessageInput.content input)
  /\ reply_events env input w = [].
Proof.
  intros Hnokey. pose proof (reply_events_cases env input w) as Hcases.
  rewrite Hnokey in Hcases. tauto.
Qed.

(** C5, as amended.  On a project without any credential, a send to a
    conversation the lookup finds, with no NUL in the conversation
    identifier and in the content, does not call the provider: the
    assistant's reply is the onboarding text, which opens with the greeting
    that quotes the content, and the conversation has exactly two messages
    more than before. *)
Theorem C5_no_credential_onboarding_reply env ctx input w c :
  has_nul (SendMessageInput.conversationId input) = false ->
  has_nul (SendMessageInput.content input) = false ->
  lookup_conversation (db w) (SendMessageInput.conversationId input)
    (SendMessageInput.projectId input) (session_user_id ctx) = Some c ->
  Forall
    (fun k => LlmApiKeys.projectId k <> SendMessageInput.projectId input)
    (llmApiKeys (db w)) ->
  exists userMessage assistantMessage w',
    conversationsRouter.sendMessage_mutation env ctx input w
    = (inr (SendMessageResult.mk userMessage assistantMessage), w')
    /\ Message.content assistantMessage
       = onboardingResponse (SendMessageInput.content input)
    /\ String.prefix (onboardingGreeting (SendMessageInput.content input))
         (Message.content assistantMessage) = true
    /\ length (messages_of (SendMessageInput.conversationId input)
                 (message (db w')))
       = (length (messages_of (SendMessageInput.conversationId input)
                    (message (db w))) + 2)%nat
    /\ trace w'
       = trace w
         ++ [Ev_conversation_findFirst (SendMessageInput.conversationId input)
               (SendMessageInput.projectId input) (session_user_id ctx);
             Ev_message_create userMessage;
             Ev_message_findMany (SendMessageInput.conversationId input);
             Ev_llmApiKeys_findFirst (SendMessageInput.projectId input);
             Ev_message_create assistantMessage;
             Ev_conversation_update (SendMessageInput.conversationId input)
               (sent_updatedAt env input w)].
Proof.
  intros Hid_nul Hcontent Hfound Hnokey.
  apply newest_llmApiKey_None in Hnokey.
  destruct (reply_text_onboarding env input w Hnokey) as [Htext Hevents].
  assert (Hreply_nul : has_nul (reply_text env input w) = false).
  { rewrite Htext. by apply onboardingResponse_no_nul. }
  pose proof (sendMessage_mutation_succeeds env ctx input w c Hid_nul Hcontent
                Hreply_nul Hfound) as Hrun.
  rewrite Htext, Hevents in Hrun.
  do 3 eexists. split; [exact Hrun|].
  unfold world_after_send. cbn [db message trace with_rows].
  split; [done|]. split; [apply onboardingResponse_greeting|]. split.
  - rewrite messages_of_sent, length_app. reflexivity.
  - reflexivity.
Qed.

Lemma C5_witness :
  exists userMessage assistantMessage w',
    conversationsRouter.sendMessage_mutation
      (Sample.env (inr (CompletionString "unused")))
      Sample.alice (Sample.send "p1" "c1" "Hello")
      (Sample.world [] [])
    = (inr (SendMessageResult.mk userMessage assistantMessage), w')
    /\ String.prefix
         ("Hello! I received your message: " +:+ dquote +:+ "Hello" +:+ dquote +:+ ".")
         (Message.content assistantMessage) = true
    /\ length (messages_of "c1" (message (db w'))) = 2%nat.
Proof.
  destruct (C5_no_credential_onboarding_reply
              (Sample.env (inr (CompletionString "unused")))
              Sample.alice (Sample.send "p1" "c1" "Hello")
              (Sample.world [] []) Sample.conv1)
    as (um & am & w' & Hrun & _ & Hgreeting & Hcount & _).
  - reflexivity.
  - reflexivity.
  - reflexivity.
  - constructor.
  - exists um, am, w'. split; [exact Hrun|]. split; [exact Hgreeting|].
    exact Hcount.
Defined.

(** C5 as it was stated fails for content with a NUL in it.  The project has
    no credential and the conversation is the caller's, but the store
    refuses the user's message: the send throws, there is no reply, and the
    conversation has as many messages as before. *)
Lemma C5_counterexample :
  lookup_conversation (db (Sample.world [] [])) "c1" "p1" "alice"
  = Some Sample.conv1
  /\ llmApiKeys (db (Sample.world [] [])) = []
  /\ fst (conversationsRouter.sendMessage_mutation
            (Sample.env (inr (CompletionString "unused"))) Sample.alice
            (Sample.send "p1" "c1" SampleMore.poisoned) (Sample.world [] []))
     = inl (JsError nulByteRejected)
  /\ length (messages_of "c1"
               (message (db (snd (conversationsRouter.sendMessage_mutation
                                    (Sample.env (inr (CompletionString "unused")))
                                    Sample.alice
                                    (Sample.send "p1" "c1" SampleMore.poisoned)
                                    (Sample.world [] []))))))
     = 0%nat.
Proof. split_and!; by vm_compute. Qed.

(** C4, as amended.  With a credential configured, whenever the attempt to
    produce a completion throws (the credential does not decode, decryption
    throws, or the provider call throws), and neither the conversation
    identifier, nor the content, nor the text of the error has a NUL in it,
    the send still returns normally; its assistant message is stored, and its
    content is the fixed apology with the text of the error in it. *)
Theorem C4_provider_failure_becomes_reply env ctx input w c key e w0 w1 :
  has_nul (SendMessageInput.conversationId input) = false ->
  has_nul (SendMessageInput.content input) = false ->
  has_nul (error_message e) = false ->
  lookup_conversation (db w) (SendMessageInput.conversationId input)
    (SendMessageInput.projectId input) (session_user_id ctx) = Some c ->
  newest_llmApiKey (db w) (SendMessageInput.projectId input) = Some key ->
  completion_attempt env key (loaded_history env input w)
    (SendMessageInput.content input) w0 = (inl e, w1) ->
  exists userMessage assistantMessage w',
    conversationsRouter.sendMessage_mutation env ctx input w
    = (inr (SendMessageResult.mk userMessage assistantMessage), w')
    /\ message (db w') = message (db w) ++ [userMessage; assistantMessage]
    /\ Message.sender assistantMessage = ASSISTANT
    /\ Message.content assistantMessage
       = providerErrorResponse (error_message e)
    /\ contains errorPhrase (Message.content assistantMessage)
    /\ contains (error_message e) (Message.content assistantMessage).
Proof.
  intros Hid_nul Hcontent Herror_nul Hfound Hkey Hthrows.
  assert (Hout :
    fst (outcome_of (completion_attempt env key (loaded_history env input w)
                       (SendMessageInput.content input))) = inl e).
  { pose proof (f_equal fst (completion_attempt_frame env key
                  (loaded_history env input w)
                  (SendMessageInput.content input) w0)) as H.
    rewrite Hthrows in H. exact (eq_sym H). }
  destruct (assistantResponse_frame env (Some key) (loaded_history env input w)
              (SendMessageInput.content input))
    as (reply & evs & Hreply & _ & Hcase).
  rewrite Hout in Hcase. subst reply.
  rewrite <- Hkey in Hreply.
  pose proof (sendMessage_mutation_run env ctx input w c _ _ Hid_nul Hcontent
                Hfound Hreply) as Hrun.
  rewrite (providerErrorResponse_no_nul _ Herror_nul) in Hrun.
  do 3 eexists. split; [exact Hrun|].
  unfold world_after_send. cbn [db message with_rows].
  split; [done|]. split; [done|]. split; [done|].
  apply providerErrorResponse_contains.
Qed.

Lemma C4_witness :
  exists userMessage assistantMessage w',
    conversationsRouter.sendMessage_mutation
      (Sample.env (inl (JsError "429 rate limited")))
      Sample.alice (Sample.send "p1" "c1" "ping")
      (Sample.world [] [Sample.key1])
    = (inr (SendMessageResult.mk userMessage assistantMessage), w')
    /\ Message.content assistantMessage
       = providerErrorResponse "429 rate limited"
    /\ contains "I'm sorry, but I encountered an error"
         (Message.content assistantMessage).
Proof.
  destruct (C4_provider_failure_becomes_reply
              (Sample.env (inl (JsError "429 rate limited")))
              Sample.alice (Sample.send "p1" "c1" "ping")
              (Sample.world [] [Sample.key1]) Sample.conv1 Sample.key1
              (JsError "429 rate limited") Sample.empty_world
              (snd (completion_attempt
                      (Sample.env (inl (JsError "429 rate limited")))
                      Sample.key1
                      (loaded_history
                         (Sample.env (inl (JsError "429 rate limited")))
                         (Sample.send "p1" "c1" "ping")
                         (Sample.world [] [Sample.key1]))
                      "ping" Sample.empty_world)))
    as (um & am & w' & Hrun & _ & _ & Hcontent & Hphrase & _).
  - reflexivity.
  - reflexivity.
  - reflexivity.
  - reflexivity.
  - reflexivity.
  - reflexivity.
  - exists um, am, w'. split; [exact Hrun|]. split; [exact Hcontent|].
    exact Hphrase.
Defined.

(** C4 as it was stated fails in two ways, each with a credential
    configured and a provider call that throws.  An error whose text has a
    NUL in it: the apology is built with that text and the store refuses it,
    so the send throws, after the user's message was stored and with no
    reply stored.  Content with a NUL in it: the store refuses the user's
    message, the send throws before the provider is reached, and nothing is
    stored. *)
Lemma C4_counterexample :
  (fst (completion_attempt (Sample.env (inl (JsError SampleMore.poisoned)))
          Sample.key1
          (loaded_history (Sample.env (inl (JsError SampleMore.poisoned)))
             (Sample.send "p1" "c1" "ping") (Sample.world [] [Sample.key1]))
          "ping" Sample.empty_world)
   = inl (JsError SampleMore.poisoned)
   /\ fst (conversationsRouter.sendMessage_mutation
             (Sample.env (inl (JsError SampleMore.poisoned))) Sample.alice
             (Sample.send "p1" "c1" "ping") (Sample.world [] [Sample.key1]))
      = inl (JsError nulByteRejected)
   /\ message (db (snd (conversationsRouter.sendMessage_mutation
                          (Sample.env (inl (JsError SampleMore.poisoned)))
                          Sample.alice (Sample.send "p1" "c1" "ping")
                          (Sample.world [] [Sample.key1]))))
      = [Message.mk "id0" 101 "c1" USER "ping"])
  /\ (newest_llmApiKey (db (Sample.world [] [Sample.key1])) "p1"
      = Some Sample.key1
      /\ fetchLLMCompletion (Sample.env (inl (JsError "429 rate limited")))
         = (fun _ => inl (JsError "429 rate limited"))
      /\ fst (conversationsRouter.sendMessage_mutation
                (Sample.env (inl (JsError "429 rate limited"))) Sample.alice
                (Sample.send "p1" "c1" SampleMore.poisoned)
                (Sample.world [] [Sample.key1]))
         = inl (JsError nulByteRejected)
      /\ message (db (snd (conversationsRouter.sendMessage_mutation
                             (Sample.env (inl (JsError "429 rate limited")))
                             Sample.alice
                             (Sample.send "p1" "c1" SampleMore.poisoned)
                             (Sample.world [] [Sample.key1]))))
         = []).
Proof. split; split_and!; by vm_compute. Qed.

(** An event is not in a list of events of other kinds. *)
Ltac not_listed H :=
  repeat (apply elem_of_cons in H; destruct H as [H|H]; [discriminate H|]);
  by apply elem_of_nil in H.

(** When the project's newest credential decodes, the reply step calls the
    provider. *)
Lemma reply_events_called env input w key data apiKey headers :
  newest_llmApiKey (db w) (SendMessageInput.projectId input) = Some key ->
  LLMApiKeySchema_safeParse env key = ParseSuccess data ->
  decrypt env (ParsedKey.secretKey data) = inr apiKey ->
  decryptAndParseExtraHeaders env (ParsedKey.extraHeaders data) = inr headers ->
  reply_events env input w
  = [Ev_fetchLLMCompletion
       (completion_params data apiKey headers
          (chatMessages (loaded_history env input w)
             (SendMessageInput.content input)))].
Proof.
  intros Hkey Hparse Hdecrypt Hheaders.
  pose proof (reply_events_cases env input w) as Hcases.
  rewrite Hkey in Hcases.
  destruct Hcases as [(_ & e & Hthrows & _)
                     |(data' & apiKey' & headers' & Hparse' & Hdecrypt'
                       & Hheaders' & Hone & _)].
  - specialize (Hthrows w).
    rewrite (completion_attempt_calls _ _ _ _ _ _ _ _
               Hparse Hdecrypt Hheaders) in Hthrows.
    injection Hthrows as _ Hw.
    apply (f_equal (fun x => length (trace x))) in Hw.
    unfold add_events in Hw. cbn [trace] in Hw.
    rewrite length_app in Hw. simpl in Hw. lia.
  - rewrite Hparse in Hparse'. injection Hparse' as <-.
    rewrite Hdecrypt in Hdecrypt'. injection Hdecrypt' as <-.
    rewrite Hheaders in Hheaders'. injection Hheaders' as <-.
    exact Hone.
Qed.

(** With fewer than twenty earlier messages, the loaded history is all of
    them and the message just stored, in ascending order. *)
Lemma loaded_history_short env input w :
  (length (messages_of (SendMessageInput.conversationId input) (message (db w)))
   < 20)%nat ->
  loaded_history env input w
  = store_orderBy (tie_message (db w)) Message.createdAt asc
      (messages_of (SendMessageInput.conversationId input) (message (db w))
       ++ [sent_userMessage env input w]).
Proof.
  intros Hshort.
  unfold loaded_history, select_messages, db_after_userMessage.
  cbn [message tie_message with_rows].
  unfold messages_of in *. rewrite filter_app.
  rewrite (filter_cons_True _ (sent_userMessage env input w)) by done.
  rewrite filter_nil. apply take_ge.
  rewrite store_orderBy_length, length_app. simpl. lia.
Qed.

(** When, besides, every earlier message was created strictly before it, the
    message just stored comes last, whatever order the store gives to
    earlier messages of one creation time. *)
Lemma loaded_history_ends_with_sent env input w :
  (length (messages_of (SendMessageInput.conversationId input) (message (db w)))
   < 20)%nat ->
  Forall
    (fun m =>
       Message.createdAt m < Message.createdAt (sent_userMessage env input w))
    (messages_of (SendMessageInput.conversationId input) (message (db w))) ->
  exists earlier,
    loaded_history env input w = earlier ++ [sent_userMessage env input w]
    /\ earlier ≡ₚ messages_of (SendMessageInput.conversationId input)
                    (message (db w))
    /\ StronglySorted (ordered Message.createdAt asc) earlier.
Proof.
  intros Hshort Hbefore. rewrite (loaded_history_short env input w Hshort).
  apply (sorted_greatest_last Message.createdAt).
  - apply store_orderBy_StronglySorted.
  - apply store_orderBy_Permutation.
  - exact Hbefore.
Qed.

(** C10, as amended.  When the conversation had fewer than twenty messages
    before the send, every call of the provider made by the send is given a
    prompt that contains the new content twice: as one of the turns taken
    from the history (the user's message was stored before the history was
    loaded, and the history is all earlier messages and that one, in
    ascending order of creation) and as the user turn appended after the
    history.  The turn taken from the history is the last of them when every
    earlier message of the conversation was created strictly before the new
    one.  Such a call is made whenever the store accepts the identifier and
    the content (no NUL in them), the conversation is found and the
    project's newest credential decodes. *)
Theorem C10_new_content_twice_in_prompt env ctx input w :
  (length (messages_of (SendMessageInput.conversationId input) (message (db w)))
   < 20)%nat ->
  exists evs,
    trace (snd (conversationsRouter.sendMessage_mutation env ctx input w))
    = trace w ++ evs
    /\ (forall params,
          Ev_fetchLLMCompletion params ∈ evs ->
          exists history,
            history
            ≡ₚ messages_of (SendMessageInput.conversationId input)
                 (message (db w))
               ++ [sent_userMessage env input w]
            /\ StronglySorted (ordered Message.createdAt asc) history
            /\ FetchLLMCompletionParams.messages params
               = systemTurn :: (historyTurn <$> history)
                 ++ [userTurn (SendMessageInput.content input)]
            /\ userTurn (SendMessageInput.content input)
               ∈ historyTurn <$> history
            /\ (Forall
                  (fun m =>
                     Message.createdAt m
                     < Message.createdAt (sent_userMessage env input w))
                  (messages_of (SendMessageInput.conversationId input)
                     (message (db w))) ->
                exists earlier,
                  earlier ≡ₚ messages_of (SendMessageInput.conversationId input)
                                (message (db w))
                  /\ FetchLLMCompletionParams.messages params
                     = systemTurn :: (historyTurn <$> earlier)
                       ++ [userTurn (SendMessageInput.content input);
                           userTurn (SendMessageInput.content input)]))
    /\ (forall c key data apiKey headers,
          has_nul (SendMessageInput.conversationId input) = false ->
          has_nul (SendMessageInput.content input) = false ->
          lookup_conversation (db w) (SendMessageInput.conversationId input)
            (SendMessageInput.projectId input) (session_user_id ctx) = Some c ->
          newest_llmApiKey (db w) (SendMessageInput.projectId input) = Some key ->
          LLMApiKeySchema_safeParse env key = ParseSuccess data ->
          decrypt env (ParsedKey.secretKey data) = inr apiKey ->
          decryptAndParseExtraHeaders env (ParsedKey.extraHeaders data)
          = inr headers ->
          exists params, Ev_fetchLLMCompletion params ∈ evs).
Proof.
  intros Hshort.
  pose proof (loaded_history_short env input w Hshort) as Hhistory.
  assert (Hshape : forall params,
    Ev_fetchLLMCompletion params ∈ reply_events env input w ->
    exists history,
      history
      ≡ₚ messages_of (SendMessageInput.conversationId input) (message (db w))
         ++ [sent_userMessage env input w]
      /\ StronglySorted (ordered Message.createdAt asc) history
      /\ FetchLLMCompletionParams.messages params
         = systemTurn :: (historyTurn <$> history)
           ++ [userTurn (SendMessageInput.content input)]
      /\ userTurn (SendMessageInput.content input) ∈ historyTurn <$> history
      /\ (Forall
            (fun m =>
               Message.createdAt m
               < Message.createdAt (sent_userMessage env input w))
            (messages_of (SendMessageInput.conversationId input)
               (message (db w))) ->
          exists earlier,
            earlier ≡ₚ messages_of (SendMessageInput.conversationId input)
                          (message (db w))
            /\ FetchLLMCompletionParams.messages params
               = systemTurn :: (historyTurn <$> earlier)
                 ++ [userTurn (SendMessageInput.content input);
                     userTurn (SendMessageInput.content input)])).
  { intros params Hin.
    assert (Hmessages :
      FetchLLMCompletionParams.messages params
      = systemTurn :: (historyTurn <$> loaded_history env input w)
        ++ [userTurn (SendMessageInput.content input)]).
    { pose proof (reply_events_cases env input w) as Hcases.
      destruct (newest_llmApiKey (db w) (SendMessageInput.projectId input))
        as [key|].
      - destruct Hcases
          as [[Hnil _]|(data & apiKey & headers & _ & _ & _ & Hone & _)].
        + rewrite Hnil in Hin. by apply elem_of_nil in Hin.
        + rewrite Hone in Hin. apply list_elem_of_singleton in Hin.
          injection Hin as ->.
          cbn [FetchLLMCompletionParams.messages completion_params].
          by rewrite chatMessages_eq.
      - destruct Hcases as [Hnil _]. rewrite Hnil in Hin.
        by apply elem_of_nil in Hin. }
    exists (loaded_history env input w).
    split; [rewrite Hhistory; apply store_orderBy_Permutation|].
    split; [rewrite Hhistory; apply store_orderBy_StronglySorted|].
    split; [exact Hmessages|]. split.
    - apply list_elem_of_fmap. exists (sent_userMessage env input w).
      split; [reflexivity|].
      rewrite Hhistory, store_orderBy_Permutation, elem_of_app. right. left.
    - intros Hbefore.
      destruct (loaded_history_ends_with_sent env input w Hshort Hbefore)
        as (earlier & Hends & Hperm & _).
      exists earlier. split; [exact Hperm|].
      rewrite Hmessages, Hends, fmap_app, <- app_assoc. reflexivity. }
  destruct (sendMessage_mutation_outcome env ctx input w)
    as [[Hrejected ->]|[(_ & Hnone & ->)|[(c & _ & _ & Hrejected & ->)
        |[(c & _ & _ & _ & _ & ->)|(c & _ & _ & _ & _ & ->)]]]];
    cbn [snd].
  - eexists. split; [reflexivity|]. split.
    + intros params Hin. not_listed Hin.
    + intros c key data apiKey headers Hid_nul. congruence.
  - eexists. split; [reflexivity|]. split.
    + intros params Hin. not_listed Hin.
    + intros c key data apiKey headers _ _ Hfound. congruence.
  - eexists. split; [reflexivity|]. split.
    + intros params Hin. not_listed Hin.
    + intros c' key data apiKey headers _ Hcontent. congruence.
  - eexists. split; [reflexivity|]. split.
    + intros params Hin. apply Hshape.
      apply elem_of_app in Hin. destruct Hin as [Hin|Hin]; [not_listed Hin|].
      apply elem_of_app in Hin. destruct Hin as [Hin|Hin]; [done|].
      not_listed Hin.
    + intros c' key data apiKey headers _ _ _ Hkey Hparse Hdecrypt Hheaders.
      eexists. rewrite !elem_of_app. right. left.
      rewrite (reply_events_called env input w key data apiKey headers)
        by done.
      left.
  - eexists. split; [reflexivity|]. split.
    + intros params Hin. apply Hshape.
      apply elem_of_app in Hin. destruct Hin as [Hin|Hin]; [not_listed Hin|].
      apply elem_of_app in Hin. destruct Hin as [Hin|Hin]; [done|].
      not_listed Hin.
    + intros c' key data apiKey headers _ _ _ Hkey Hparse Hdecrypt Hheaders.
      eexists. rewrite !elem_of_app. right. left.
      rewrite (reply_events_called env input w key data apiKey headers)
        by done.
      left.
Qed.

Lemma C10_witness :
  exists params earlier,
    Ev_fetchLLMCompletion params
    ∈ trace (snd (conversationsRouter.sendMessage_mutation
                    (Sample.env (inr (CompletionString "pong")))
                    Sample.alice (Sample.send "p1" "c1" "ping")
                    (Sample.world (Sample.seeded 2) [Sample.key1])))
    /\ earlier ≡ₚ Sample.seeded 2
    /\ FetchLLMCompletionParams.messages params
       = systemTurn :: (historyTurn <$> earlier)
         ++ [userTurn "ping"; userTurn "ping"].
Proof.
  destruct (C10_new_content_twice_in_prompt
              (Sample.env (inr (CompletionString "pong")))
              Sample.alice (Sample.send "p1" "c1" "ping")
              (Sample.world (Sample.seeded 2) [Sample.key1]))
    as (evs & Htrace & Hprompt & Hcalled).
  - compute_done.
  - destruct (Hcalled Sample.conv1 Sample.key1 _ _ _ eq_refl eq_refl eq_refl
                eq_refl eq_refl eq_refl eq_refl)
      as [params Hin].
    destruct (Hprompt params Hin) as (history & _ & _ & _ & _ & Hlast).
    destruct Hlast as (earlier & Hperm & Hmessages); [compute_done|].
    exists params, earlier. split; [by rewrite Htrace|].
    split; [exact Hperm|]. exact Hmessages.
Defined.

(** C10 as it was stated fails when an earlier message has the creation time
    of the new one.  The conversation has one message, a reply created in
    the millisecond in which the new message is stored, and the store
    returns the new message before it: the provider is prompted with the new
    content, then the earlier reply, then the new content again, so the last
    turn taken from the history is not the new message. *)
Lemma C10_counterexample :
  length (messages_of "c1" (message (db SampleMore.tied_world))) = 1%nat
  /\ Ev_fetchLLMCompletion
       (completion_params
          (ParsedKey.mk "openai" "openai" "sealed" None None None) "sealed" None
          [systemTurn; userTurn "ping"; assistantTurn "earlier reply";
           userTurn "ping"])
     ∈ trace (snd (conversationsRouter.sendMessage_mutation
                     SampleMore.env_instant Sample.alice
                     (Sample.send "p1" "c1" "ping") SampleMore.tied_world)).
Proof.
  split; [by vm_compute|]. vm_compute. do 4 right. left.
Qed.

(** ** Reading conversations *)

Lemma byId_query_run ctx input w :
  conversationsRouter.byId_query ctx input w
  = (if has_nul (GetConversationInput.conversationId input)
     then inl (JsError nulByteRejected)
     else
       match lookup_conversation (db w)
               (GetConversationInput.conversationId input)
               (GetConversationInput.projectId input) (session_user_id ctx) with
       | Some c =>
           inr (ConversationDetail.mk c
                  (store_orderBy (tie_message (db w)) Message.createdAt asc
                     (messages_of (Conversation.id c) (message (db w)))))
       | None => inl (TRPCError NOT_FOUND conversationNotFound)
       end,
     add_events w
       [Ev_conversation_findFirst (GetConversationInput.conversationId input)
          (GetConversationInput.projectId input) (session_user_id ctx)]).
Proof.
  unfold conversationsRouter.byId_query, conversation_findFirst_include.
  unfold bind, emit, get_db, ret, throw. simpl.
  destruct (has_nul _); [done|].
  by destruct (lookup_conversation _ _ _ _).
Qed.

Lemma all_query_run ctx input w :
  conversationsRouter.all_query ctx input w
  = (inr (summary_of (db w)
          <$> store_orderBy (tie_conversation (db w)) Conversation.updatedAt desc
                (filter (owned_by (ProjectInput.projectId input)
                           (session_user_id ctx))
                   (conversation (db w)))),
     add_events w
       [Ev_conversation_findMany (ProjectInput.projectId input)
          (session_user_id ctx)]).
Proof.
  unfold conversationsRouter.all_query, conversation_findMany_include.
  unfold bind, emit, get_db, ret. simpl.
  by rewrite map_map.
Qed.

(** The head of the messages in descending order is the last message,
    whatever the order among messages of one creation time. *)
Lemma newest_is_last_message tie ms :
  is_last_message ms
    (js_or_null
       (js_index (take 1 (store_orderBy tie Message.createdAt desc ms)) 0)).
Proof.
  pose proof (store_orderBy_Permutation Message.createdAt tie desc ms) as Hperm.
  pose proof (store_orderBy_StronglySorted Message.createdAt tie desc ms)
    as Hsorted.
  destruct (store_orderBy tie Message.createdAt desc ms) as [|m rest]; simpl.
  - symmetry. by apply Permutation_nil_l.
  - split.
    + rewrite <- Hperm. left.
    + rewrite <- Hperm. apply StronglySorted_inv in Hsorted.
      destruct Hsorted as [_ Hm]. constructor; [lia|]. exact Hm.
Qed.

Lemma summary_of_summarizes d c : summarizes d c (summary_of d c).
Proof.
  unfold summarizes, summary_of. simpl. split_and!; try reflexivity.
  apply newest_is_last_message.
Qed.

(** C6, as amended.  For a conversation identifier without NUL, the detail
    query answers with the conversation that matches (conversation id,
    project id, caller id) and all of its messages in non-decreasing order of
    creation; when no row matches all three (the conversation is absent, or
    is another user's or another project's) it fails with NOT_FOUND.  Either
    way nothing is written. *)
Theorem C6_byId_detail_or_not_found ctx input w :
  has_nul (GetConversationInput.conversationId input) = false ->
  exists w',
    db w' = db w
    /\ ((exists c messages,
           conversationsRouter.byId_query ctx input w
           = (inr (ConversationDetail.mk c messages), w')
           /\ c ∈ conversation (db w)
           /\ conversation_where (GetConversationInput.conversationId input)
                (GetConversationInput.projectId input) (session_user_id ctx) c
           /\ messages ≡ₚ messages_of (GetConversationInput.conversationId input)
                            (message (db w))
           /\ StronglySorted (ordered Message.createdAt asc) messages)
        \/ (Forall
              (fun c =>
                 ~ conversation_where (GetConversationInput.conversationId input)
                     (GetConversationInput.projectId input)
                     (session_user_id ctx) c)
              (conversation (db w))
            /\ conversationsRouter.byId_query ctx input w
               = (inl (TRPCError NOT_FOUND conversationNotFound), w'))).
Proof.
  intros Hid_nul.
  exists (add_events w
            [Ev_conversation_findFirst (GetConversationInput.conversationId input)
               (GetConversationInput.projectId input) (session_user_id ctx)]).
  split; [reflexivity|]. rewrite byId_query_run, Hid_nul.
  destruct (lookup_conversation _ _ _ _) as [c|] eqn:Hlookup.
  - left. pose proof (lookup_conversation_Some _ _ _ _ _ Hlookup) as [Hc Hwhere].
    exists c. eexists. split; [reflexivity|]. split; [done|]. split; [done|].
    destruct Hwhere as [-> _]. split.
    + apply store_orderBy_Permutation.
    + apply store_orderBy_StronglySorted.
  - right. split; [|reflexivity].
    apply Forall_forall. by apply lookup_conversation_None.
Qed.

Lemma C6_witness :
  exists w',
    db w' = db (Sample.world (Sample.seeded 3) [])
    /\ ((exists c messages,
           conversationsRouter.byId_query Sample.alice
             (GetConversationInput.mk "p1" "c1")
             (Sample.world (Sample.seeded 3) [])
           = (inr (ConversationDetail.mk c messages), w')
           /\ c ∈ conversation (db (Sample.world (Sample.seeded 3) []))
           /\ conversation_where "c1" "p1" "alice" c
           /\ messages ≡ₚ messages_of "c1"
                            (message (db (Sample.world (Sample.seeded 3) [])))
           /\ StronglySorted (ordered Message.createdAt asc) messages)
        \/ (Forall
              (fun c => ~ conversation_where "c1" "p1" "alice" c)
              (conversation (db (Sample.world (Sample.seeded 3) [])))
            /\ conversationsRouter.byId_query Sample.alice
                 (GetConversationInput.mk "p1" "c1")
                 (Sample.world (Sample.seeded 3) [])
               = (inl (TRPCError NOT_FOUND conversationNotFound), w'))).
Proof.
  apply (C6_byId_detail_or_not_found Sample.alice
           (GetConversationInput.mk "p1" "c1")
           (Sample.world (Sample.seeded 3) [])).
  reflexivity.
Defined.

(** C6 as it was stated fails for an identifier with a NUL in it.  The
    schema accepts such an identifier, no row matches it, and the query ends
    with the store's error: it neither answers with a conversation nor fails
    with NOT_FOUND. *)
Lemma C6_counterexample :
  Forall
    (fun c => ~ conversation_where SampleMore.poisoned "p1" "alice" c)
    (conversation (db (Sample.world (Sample.seeded 3) [])))
  /\ fst (conversationsRouter.byId (Sample.env (inr CompletionOther))
            Sample.alice
            {[ "projectId" := JString "p1";
               "conversationId" := JString SampleMore.poisoned ]}
            (Sample.world (Sample.seeded 3) []))
     = inl (JsError nulByteRejected)
  /\ fst (conversationsRouter.byId_query Sample.alice
            (GetConversationInput.mk "p1" SampleMore.poisoned)
            (Sample.world (Sample.seeded 3) []))
     = inl (JsError nulByteRejected)
  /\ fst (conversationsRouter.byId_query Sample.alice
            (GetConversationInput.mk "p1" SampleMore.poisoned)
            (Sample.world (Sample.seeded 3) []))
     <> inl (TRPCError NOT_FOUND conversationNotFound).
Proof.
  split; [compute_done|]. split; [by vm_compute|].
  assert (H : fst (conversationsRouter.byId_query Sample.alice
                     (GetConversationInput.mk "p1" SampleMore.poisoned)
                     (Sample.world (Sample.seeded 3) []))
              = inl (JsError nulByteRejected)) by (by vm_compute).
  split; [exact H|]. rewrite H. discriminate.
Qed.

(** Another user's conversation is not found. *)
Example byId_other_user_not_found :
  fst (conversationsRouter.byId_query Sample.mallory
         (GetConversationInput.mk "p1" "c1")
         (Sample.world (Sample.seeded 3) []))
  = inl (TRPCError NOT_FOUND conversationNotFound).
Proof. reflexivity. Qed.

Example byId_own_conversation :
  fst (conversationsRouter.byId_query Sample.alice
         (GetConversationInput.mk "p1" "c1")
         (Sample.world (Sample.seeded 3) []))
  = inr (ConversationDetail.mk Sample.conv1 (Sample.seeded 3)).
Proof. reflexivity. Qed.

(** C7. The listing holds one entry for each conversation of the caller in
    the project and for no other; each entry carries the number of messages
    of its conversation and the one created last; the entries are in
    descending order of [updatedAt].  Listing writes nothing. *)
Theorem C7_all_lists_owned_conversations ctx input w :
  exists result rows w',
    conversationsRouter.all_query ctx input w = (inr result, w')
    /\ db w' = db w
    /\ rows ≡ₚ filter (owned_by (ProjectInput.projectId input) (session_user_id ctx))
                 (conversation (db w))
    /\ Forall2 (summarizes (db w)) rows result
    /\ StronglySorted (ordered ConversationSummary.updatedAt desc) result.
Proof.
  rewrite all_query_run. do 3 eexists. split; [reflexivity|].
  split; [reflexivity|]. split; [apply store_orderBy_Permutation|]. split.
  - apply Forall2_fmap_r, Forall_Forall2_diag, Forall_forall.
    intros c _. apply summary_of_summarizes.
  - apply (StronglySorted_fmap _ (ordered Conversation.updatedAt desc)).
    + intros c1 c2 Hle. exact Hle.
    + apply store_orderBy_StronglySorted.
Qed.

Example all_lists_own_conversations :
  fst (conversationsRouter.all_query Sample.alice (ProjectInput.mk "p1")
         (Sample.world (Sample.seeded 3) []))
  = inr [ConversationSummary.mk "c2" 20 40 0 null;
         ConversationSummary.mk "c1" 10 10 3
           (defined (Message.mk "m3" 3 "c1" USER "turn 3"))].
Proof. reflexivity. Qed.

(** C9. In the listing, the entry of a conversation without any message has
    [lastMessage] equal to [null] and [messageCount] equal to 0. *)
Theorem C9_no_messages_null_lastMessage ctx input w result w' r :
  conversationsRouter.all_query ctx input w = (inr result, w') ->
  r ∈ result ->
  Forall (fun m => Message.conversationId m <> ConversationSummary.id r)
    (message (db w)) ->
  ConversationSummary.lastMessage r = null
  /\ ConversationSummary.messageCount r = 0%nat.
Proof.
  intros Hrun Hr Hnone. rewrite all_query_run in Hrun.
  injection Hrun as <- _.
  apply list_elem_of_fmap in Hr. destruct Hr as (c & -> & _).
  unfold summary_of in *. simpl in *.
  replace (messages_of (Conversation.id c) (message (db w)))
    with (@nil Message.t); [done|].
  symmetry. unfold messages_of.
  induction Hnone as [|m l Hm Hl IH]; [done|].
  by rewrite filter_cons_False.
Qed.

Lemma C9_witness :
  exists result w' r,
    conversationsRouter.all_query Sample.alice (ProjectInput.mk "p1")
      (Sample.world (Sample.seeded 3) []) = (inr result, w')
    /\ r ∈ result
    /\ ConversationSummary.id r = "c2"
    /\ ConversationSummary.lastMessage r = null
    /\ ConversationSummary.messageCount r = 0%nat.
Proof.
  exists [ConversationSummary.mk "c2" 20 40 0 null;
          ConversationSummary.mk "c1" 10 10 3
            (defined (Message.mk "m3" 3 "c1" USER "turn 3"))].
  exists (add_events (Sample.world (Sample.seeded 3) [])
            [Ev_conversation_findMany "p1" "alice"]).
  exists (ConversationSummary.mk "c2" 20 40 0 null).
  split; [reflexivity|]. split; [left|]. split; [reflexivity|].
  apply (C9_no_messages_null_lastMessage Sample.alice (ProjectInput.mk "p1")
           (Sample.world (Sample.seeded 3) [])
           [ConversationSummary.mk "c2" 20 40 0 null;
            ConversationSummary.mk "c1" 10 10 3
              (defined (Message.mk "m3" 3 "c1" USER "turn 3"))]
           (add_events (Sample.world (Sample.seeded 3) [])
              [Ev_conversation_findMany "p1" "alice"])).
  - reflexivity.
  - left.
  - compute_done.
Defined.

(** ** The context of a long conversation *)

(** Once a conversation has twenty messages, all created before the message
    a send stores, the history the send loads is twenty of the earlier
    messages: the message just stored is beyond the first twenty rows in
    ascending order. *)
Lemma loaded_history_long env input w :
  Forall
    (fun m =>
       Message.createdAt m < Message.createdAt (sent_userMessage env input w))
    (messages_of (SendMessageInput.conversationId input) (message (db w))) ->
  (20 <= length (messages_of (SendMessageInput.conversationId input)
                   (message (db w))))%nat ->
  exists earlier,
    loaded_history env input w = take 20 earlier
    /\ earlier ≡ₚ messages_of (SendMessageInput.conversationId input)
                    (message (db w))
    /\ StronglySorted (ordered Message.createdAt asc) earlier.
Proof.
  intros Hbefore Hlong.
  destruct (sorted_greatest_last Message.createdAt
              (store_orderBy (tie_message (db w)) Message.createdAt asc
                 (messages_of (SendMessageInput.conversationId input)
                    (message (db w))
                  ++ [sent_userMessage env input w]))
              (messages_of (SendMessageInput.conversationId input)
                 (message (db w)))
              (sent_userMessage env input w))
    as (earlier & Heq & Hperm & Hsorted).
  { apply store_orderBy_StronglySorted. }
  { apply store_orderBy_Permutation. }
  { exact Hbefore. }
  exists earlier. split; [|by split].
  unfold loaded_history, select_messages, db_after_userMessage.
  cbn [message tie_message with_rows].
  unfold messages_of in *. rewrite filter_app.
  rewrite (filter_cons_True _ (sent_userMessage env input w)) by done.
  rewrite filter_nil, Heq. apply take_app_le. by rewrite Hperm.
Qed.

(** C1, evaluated where it fails.  The conversation has twenty messages,
    created at times 1 to 20, and a message is sent at time 101.  Of the
    twenty-one messages then stored, the twenty created last are those of
    times 2 to 20 and the new one; the history the send loads is those of
    times 1 to 20, without the new one, and that is the history the provider
    is prompted with. *)
Theorem C1_history_is_the_oldest_twenty :
  let env := Sample.env (inr (CompletionString "ok")) in
  let input := Sample.send "p1" "c1" "the newest message" in
  let w := Sample.world (Sample.seeded 20) [Sample.key1] in
  let stored := messages_of "c1" (message (db_after_userMessage env input w)) in
  length stored = 21%nat
  /\ (Message.createdAt <$> most_recent 20 stored)
     = [2; 3; 4; 5; 6; 7; 8; 9; 10; 11; 12; 13; 14; 15; 16; 17; 18; 19; 20; 101]
  /\ (Message.createdAt <$> loaded_history env input w)
     = [1; 2; 3; 4; 5; 6; 7; 8; 9; 10; 11; 12; 13; 14; 15; 16; 17; 18; 19; 20]
  /\ loaded_history env input w <> most_recent 20 stored
  /\ (sent_userMessage env input w ∉ loaded_history env input w)
  /\ exists result w' params,
       conversationsRouter.sendMessage_mutation env Sample.alice input w
       = (inr result, w')
       /\ Ev_fetchLLMCompletion params ∈ trace w'
       /\ FetchLLMCompletionParams.messages params
          = systemTurn :: (historyTurn <$> Sample.seeded 20)
            ++ [userTurn "the newest message"].
Proof.
  intros env input w stored.
  split; [by vm_compute|]. split; [by vm_compute|]. split; [by vm_compute|].
  split; [vm_compute; discriminate|]. split.
  { intros Hin. apply list_elem_of_fmap_2 with (f := Message.createdAt) in Hin.
    vm_compute in Hin. not_listed Hin. }
  eexists. eexists.
  exists (completion_params
            (ParsedKey.mk "openai" "openai" "sealed" None None None)
            "plain:sealed" None
            (systemTurn :: (historyTurn <$> Sample.seeded 20)
             ++ [userTurn "the newest message"])).
  split; [by vm_compute|]. split; [|reflexivity].
  vm_compute. do 4 right. left.
Qed.

(** ** A session from the empty store *)

(** Create a conversation, send "Hello" with no credential configured: the
    reply opens with the greeting and the listing counts two messages. *)
Example create_then_send_hello :
  let env := Sample.env (inr CompletionOther) in
  let w1 := snd (conversationsRouter.create env Sample.alice
                   {[ "projectId" := JString "p1" ]} Sample.empty_world) in
  let sent := conversationsRouter.sendMessage env Sample.alice
                (sendMessage_request "p1" "id0" "Hello") w1 in
  (exists result,
      fst sent = inr result
      /\ String.prefix (onboardingGreeting "Hello")
           (Message.content (SendMessageResult.assistantMessage result)) = true)
  /\ (ConversationSummary.messageCount
        <$> match fst (conversationsRouter.all env Sample.alice
                         {[ "projectId" := JString "p1" ]} (snd sent)) with
            | inr listing => listing
            | inl _ => []
            end)
     = [2%nat].
Proof.
  intros env w1 sent. split.
  - eexists. split; [by vm_compute|]. by vm_compute.
  - by vm_compute.
Qed.

(** * Further properties of the router *)

(** ** What a send does to the store *)

Lemma set_updatedAt_id id t c :
  Conversation.id (set_updatedAt id t c) = Conversation.id c.
Proof. unfold set_updatedAt. by case_decide. Qed.

Lemma set_updatedAt_identity id t c :
  conversation_identity (set_updatedAt id t c) = conversation_identity c.
Proof. unfold set_updatedAt. by case_decide. Qed.

Lemma set_updatedAt_other id t c :
  Conversation.id c <> id -> set_updatedAt id t c = c.
Proof. intros Hne. unfold set_updatedAt. by case_decide. Qed.

Lemma set_updatedAt_ids id t (l : list Conversation.t) :
  Conversation.id <$> (set_updatedAt id t <$> l) = Conversation.id <$> l.
Proof.
  rewrite <- list_fmap_compose. apply list_fmap_ext.
  intros i c _. apply set_updatedAt_id.
Qed.

(** The sender's messages are appended to those of any conversation the
    store already had; another conversation's messages are the same. *)
Lemma messages_of_sent_other env input w reply conversationId :
  conversationId <> SendMessageInput.conversationId input ->
  messages_of conversationId
    (message (db w)
     ++ [sent_userMessage env input w; sent_assistantMessage env input w reply])
  = messages_of conversationId (message (db w)).
Proof.
  intros Hne. unfold messages_of. rewrite filter_app.
  rewrite filter_cons_False by (simpl; congruence).
  rewrite filter_cons_False by (simpl; congruence).
  by rewrite filter_nil, app_nil_r.
Qed.

Lemma sent_assistantMessage_createdAt_ge env input w reply :
  Message.createdAt (sent_userMessage env input w)
  <= Message.createdAt (sent_assistantMessage env input w reply).
Proof. unfold sent_assistantMessage. simpl. lia. Qed.

Lemma lookup_conversation_with_rows d msgs id projectId userId :
  lookup_conversation (with_rows d (conversation d) msgs) id projectId userId
  = lookup_conversation d id projectId userId.
Proof. reflexivity. Qed.

Lemma messages_of_other_snoc (m : Message.t) ms conversationId :
  conversationId <> Message.conversationId m ->
  messages_of conversationId (ms ++ [m]) = messages_of conversationId ms.
Proof.
  intros Hne. unfold messages_of. rewrite filter_app.
  rewrite filter_cons_False by (simpl; congruence).
  by rewrite filter_nil, app_nil_r.
Qed.

(** X1. Both mutations keep the two invariants of the store: every message
    belongs to a stored conversation, and no stored timestamp lies in the
    future of the clock.  This holds for every outcome of a send, the
    NOT_FOUND one included. *)
Theorem mutations_preserve_invariants env ctx created sent w :
  referential_integrity (db w) ->
  timestamps_in_past w ->
  (referential_integrity
     (db (snd (conversationsRouter.create_mutation env ctx created w)))
   /\ timestamps_in_past
        (snd (conversationsRouter.create_mutation env ctx created w)))
  /\ (referential_integrity
        (db (snd (conversationsRouter.sendMessage_mutation env ctx sent w)))
      /\ timestamps_in_past
           (snd (conversationsRouter.sendMessage_mutation env ctx sent w))).
Proof.
  intros Hint Hpast. split.
  - split; [|by apply create_mutation_timestamps_in_past].
    rewrite create_mutation_run. unfold referential_integrity in *. simpl.
    eapply Forall_impl; [exact Hint|]. intros m Hm. simpl in Hm.
    rewrite fmap_app. apply elem_of_app. by left.
  - pose proof (sent_userMessage_createdAt_ge env sent w) as Huser.
    pose proof (sent_assistantMessage_createdAt_ge env sent w
                  (reply_text env sent w)) as Hreply.
    pose proof (sent_updatedAt_ge env sent w) as Hnow.
    destruct Hpast as [Hconvs Hmsgs].
    destruct (sendMessage_mutation_outcome env ctx sent w)
      as [[_ ->]|[(_ & _ & ->)|[(c & _ & _ & _ & ->)
         |[(c & _ & Hfound & _ & _ & ->)|(c & _ & Hfound & _ & _ & ->)]]]];
      cbn [snd].
    + split; [exact Hint|]. by constructor.
    + split; [exact Hint|]. by constructor.
    + split; [exact Hint|]. unfold world_user_rejected.
      constructor; cbn [db now].
      * eapply Forall_impl; [exact Hconvs|]. intros c0 [H1 H2]. lia.
      * eapply Forall_impl; [exact Hmsgs|]. intros m Hm. cbn beta in Hm. lia.
    + pose proof (lookup_conversation_id _ _ _ _ _ Hfound) as Hid.
      unfold world_reply_rejected, db_after_userMessage. cbn [db now]. split.
      * unfold referential_integrity in *. cbn [conversation message with_rows].
        rewrite Forall_app. split; [exact Hint|]. by repeat constructor.
      * constructor; cbn [db now conversation message with_rows].
        -- eapply Forall_impl; [exact Hconvs|]. intros c0 [H1 H2]. lia.
        -- rewrite Forall_app. split.
           ++ eapply Forall_impl; [exact Hmsgs|]. intros m Hm.
              cbn beta in Hm. lia.
           ++ repeat constructor. lia.
    + pose proof (lookup_conversation_id _ _ _ _ _ Hfound) as Hid.
      unfold world_after_send. cbn [db]. split.
      * unfold referential_integrity in *. cbn [conversation message with_rows].
        rewrite set_updatedAt_ids, Forall_app. split; [exact Hint|].
        by repeat constructor.
      * constructor; cbn [db conversation message now with_rows].
        -- apply Forall_fmap. eapply Forall_impl; [exact Hconvs|].
           intros c0 [H1 H2]. unfold set_updatedAt. simpl.
           case_decide; simpl; lia.
        -- rewrite Forall_app. split.
           ++ eapply Forall_impl; [exact Hmsgs|]. intros m Hm. simpl in Hm. lia.
           ++ unfold sent_updatedAt, sent_assistantMessage, sent_userMessage in *.
              repeat constructor; simpl; lia.
Qed.

Lemma mutations_preserve_invariants_witness :
  referential_integrity
    (db (snd (conversationsRouter.sendMessage_mutation
                (Sample.env (inr CompletionOther)) Sample.alice
                (Sample.send "p1" "c1" "hello")
                (Sample.world (Sample.seeded 3) [Sample.key1]))))
  /\ timestamps_in_past
       (snd (conversationsRouter.sendMessage_mutation
               (Sample.env (inr CompletionOther)) Sample.alice
               (Sample.send "p1" "c1" "hello")
               (Sample.world (Sample.seeded 3) [Sample.key1]))).
Proof.
  apply (mutations_preserve_invariants (Sample.env (inr CompletionOther))
           Sample.alice (ProjectInput.mk "p1") (Sample.send "p1" "c1" "hello")
           (Sample.world (Sample.seeded 3) [Sample.key1])).
  - unfold referential_integrity. compute_done.
  - constructor; compute_done.
Defined.

(** X2. Whatever its outcome, a send keeps every conversation row in place
    with its identifier, creation time, owner and project, leaves the rows of
    other conversations exactly as they were, does not touch the credentials,
    and only appends to the messages, and only messages of the conversation
    it names. *)
Theorem sendMessage_touches_only_its_conversation env ctx input w :
  let w' := snd (conversationsRouter.sendMessage_mutation env ctx input w) in
  Forall2
    (fun c c' =>
       conversation_identity c' = conversation_identity c
       /\ (Conversation.id c <> SendMessageInput.conversationId input -> c' = c))
    (conversation (db w)) (conversation (db w'))
  /\ llmApiKeys (db w') = llmApiKeys (db w)
  /\ exists appended,
       message (db w') = message (db w) ++ appended
       /\ Forall
            (fun m =>
               Message.conversationId m = SendMessageInput.conversationId input)
            appended.
Proof.
  intros w'. subst w'.
  assert (Hsame :
    Forall2
      (fun c c' =>
         conversation_identity c' = conversation_identity c
         /\ (Conversation.id c <> SendMessageInput.conversationId input -> c' = c))
      (conversation (db w)) (conversation (db w))).
  { apply Forall_Forall2_diag, Forall_forall. by intros c _. }
  destruct (sendMessage_mutation_outcome env ctx input w)
    as [[_ ->]|[(_ & _ & ->)|[(c & _ & _ & _ & ->)
       |[(c & _ & _ & _ & _ & ->)|(c & _ & _ & _ & _ & ->)]]]];
    cbn [snd].
  - split; [exact Hsame|]. split; [done|]. exists []. by rewrite app_nil_r.
  - split; [exact Hsame|]. split; [done|]. exists []. by rewrite app_nil_r.
  - split; [exact Hsame|]. split; [done|]. exists []. by rewrite app_nil_r.
  - unfold world_reply_rejected, db_after_userMessage.
    cbn [db conversation message llmApiKeys with_rows].
    split; [exact Hsame|]. split; [done|].
    eexists. split; [reflexivity|]. by repeat constructor.
  - unfold world_after_send. cbn [db conversation message llmApiKeys with_rows].
    split; [|split; [done|]].
    + apply Forall2_fmap_r, Forall_Forall2_diag, Forall_forall.
      intros c0 _. split; [apply set_updatedAt_identity|].
      apply set_updatedAt_other.
    + eexists. split; [reflexivity|]. by repeat constructor.
Qed.

(** X3. A send does not change what the detail query answers for any other
    conversation, for any caller and project. *)
Theorem sendMessage_leaves_other_details env ctx input w ctx' input' :
  GetConversationInput.conversationId input'
  <> SendMessageInput.conversationId input ->
  fst (conversationsRouter.byId_query ctx' input'
         (snd (conversationsRouter.sendMessage_mutation env ctx input w)))
  = fst (conversationsRouter.byId_query ctx' input' w).
Proof.
  intros Hne. rewrite !byId_query_run. cbn [fst].
  destruct (has_nul (GetConversationInput.conversationId input')); [done|].
  destruct (sendMessage_mutation_outcome env ctx input w)
    as [[_ ->]|[(_ & _ & ->)|[(c & _ & _ & _ & ->)
       |[(c & _ & _ & _ & _ & ->)|(c & _ & _ & _ & _ & ->)]]]];
    cbn [snd]; try reflexivity.
  - unfold world_reply_rejected, db_after_userMessage. cbn [db].
    rewrite lookup_conversation_with_rows.
    destruct (lookup_conversation (db w) _ _ _) as [c0|] eqn:Hlookup; [|done].
    apply lookup_conversation_Some in Hlookup. destruct Hlookup as [_ [Hid _]].
    cbn [message tie_message with_rows].
    by rewrite messages_of_other_snoc by (simpl; congruence).
  - unfold world_after_send. cbn [db].
    rewrite lookup_conversation_set_updatedAt.
    destruct (lookup_conversation (db w) _ _ _) as [c0|] eqn:Hlookup; [|done].
    apply lookup_conversation_Some in Hlookup. destruct Hlookup as [_ [Hid _]].
    cbn [fmap option_fmap option_map message tie_message with_rows].
    rewrite set_updatedAt_other by congruence.
    rewrite Hid, messages_of_sent_other by done. reflexivity.
Qed.

Lemma sendMessage_leaves_other_details_witness :
  fst (conversationsRouter.byId_query Sample.mallory
         (GetConversationInput.mk "p1" "c3")
         (snd (conversationsRouter.sendMessage_mutation
                 (Sample.env (inr CompletionOther)) Sample.alice
                 (Sample.send "p1" "c1" "hello")
                 (Sample.world (Sample.seeded 3) []))))
  = inr (ConversationDetail.mk Sample.conv3 []).
Proof.
  rewrite (sendMessage_leaves_other_details (Sample.env (inr CompletionOther))
             Sample.alice (Sample.send "p1" "c1" "hello")
             (Sample.world (Sample.seeded 3) []) Sample.mallory
             (GetConversationInput.mk "p1" "c3")).
  - reflexivity.
  - discriminate.
Defined.

(** X4. After a send that succeeds (the conversation is the caller's, and
    identifier, content and reply have no NUL), the detail query of the same
    caller shows the messages the conversation had and the two new ones, in
    non-decreasing order of creation, and the conversation carries the new
    [updatedAt].  When every earlier message was created before the user's
    message, and that one before the reply, the two new messages come last,
    the user's first. *)
Theorem sendMessage_then_byId env ctx input w c :
  has_nul (SendMessageInput.conversationId input) = false ->
  has_nul (SendMessageInput.content input) = false ->
  has_nul (reply_text env input w) = false ->
  lookup_conversation (db w) (SendMessageInput.conversationId input)
    (SendMessageInput.projectId input) (session_user_id ctx) = Some c ->
  exists userMessage assistantMessage w' row messages,
    conversationsRouter.sendMessage_mutation env ctx input w
    = (inr (SendMessageResult.mk userMessage assistantMessage), w')
    /\ fst (conversationsRouter.byId_query ctx
              (GetConversationInput.mk (SendMessageInput.projectId input)
                 (SendMessageInput.conversationId input)) w')
       = inr (ConversationDetail.mk row messages)
    /\ messages
       ≡ₚ messages_of (SendMessageInput.conversationId input) (message (db w))
          ++ [userMessage; assistantMessage]
    /\ StronglySorted (ordered Message.createdAt asc) messages
    /\ (Forall
          (fun m => Message.createdAt m < Message.createdAt userMessage)
          (messages_of (SendMessageInput.conversationId input)
             (message (db w))) ->
        Message.createdAt userMessage < Message.createdAt assistantMessage ->
        exists earlier,
          messages = earlier ++ [userMessage; assistantMessage]
          /\ earlier ≡ₚ messages_of (SendMessageInput.conversationId input)
                          (message (db w)))
    /\ conversation_identity row = conversation_identity c
    /\ Conversation.updatedAt row = sent_updatedAt env input w.
Proof.
  intros Hid_nul Hcontent Hreply_nul Hfound.
  pose proof (sendMessage_mutation_succeeds env ctx input w c Hid_nul Hcontent
                Hreply_nul Hfound) as Hrun.
  pose proof (lookup_conversation_Some _ _ _ _ _ Hfound) as [_ [Hid _]].
  set (um := sent_userMessage env input w).
  set (am := sent_assistantMessage env input w (reply_text env input w)).
  set (old := messages_of (SendMessageInput.conversationId input)
                (message (db w))).
  set (h := store_orderBy (tie_message (db w)) Message.createdAt asc
              (old ++ [um; am])).
  exists um, am. eexists.
  exists (set_updatedAt (SendMessageInput.conversationId input)
            (sent_updatedAt env input w) c), h.
  split; [exact Hrun|]. split.
  { rewrite byId_query_run. cbn [fst]. unfold world_after_send.
    cbn [db GetConversationInput.conversationId
         GetConversationInput.projectId].
    rewrite Hid_nul, lookup_conversation_set_updatedAt, Hfound.
    cbn [fmap option_fmap option_map message tie_message with_rows].
    by rewrite set_updatedAt_id, Hid, messages_of_sent. }
  split; [apply store_orderBy_Permutation|].
  split; [apply store_orderBy_StronglySorted|].
  split; [|split; [apply set_updatedAt_identity|]].
  - intros Hbefore Horder.
    destruct (sorted_greatest_last Message.createdAt h (old ++ [um]) am)
      as (h1 & Hh & Hperm1 & Hsorted1).
    { apply store_orderBy_StronglySorted. }
    { unfold h. rewrite store_orderBy_Permutation, <- app_assoc. reflexivity. }
    { rewrite Forall_app. split.
      - eapply Forall_impl; [exact Hbefore|]. intros m Hm. cbn beta in Hm. lia.
      - by repeat constructor. }
    destruct (sorted_greatest_last Message.createdAt h1 old um Hsorted1 Hperm1
                Hbefore)
      as (h0 & Hh1 & Hperm0 & _).
    exists h0. split; [|exact Hperm0].
    by rewrite Hh, Hh1, <- app_assoc.
  - unfold set_updatedAt. by case_decide.
Qed.

Lemma sendMessage_then_byId_witness :
  exists userMessage assistantMessage w' row,
    conversationsRouter.sendMessage_mutation
      (Sample.env (inr (CompletionString "Hi!"))) Sample.alice
      (Sample.send "p1" "c1" "hello")
      (Sample.world (Sample.seeded 3) [Sample.key1])
    = (inr (SendMessageResult.mk userMessage assistantMessage), w')
    /\ exists earlier,
         fst (conversationsRouter.byId_query Sample.alice
                (GetConversationInput.mk "p1" "c1") w')
         = inr (ConversationDetail.mk row
                  (earlier ++ [userMessage; assistantMessage]))
         /\ earlier ≡ₚ Sample.seeded 3.
Proof.
  destruct (sendMessage_then_byId (Sample.env (inr (CompletionString "Hi!")))
              Sample.alice (Sample.send "p1" "c1" "hello")
              (Sample.world (Sample.seeded 3) [Sample.key1]) Sample.conv1)
    as (um & am & w' & row & messages & Hrun & Hdetail & _ & _ & Hlast & _).
  - reflexivity.
  - reflexivity.
  - by vm_compute.
  - reflexivity.
  - exists um, am, w', row. split; [exact Hrun|].
    injection Hrun as Hum Ham _.
    destruct Hlast as (earlier & Hmessages & Hperm).
    + rewrite <- Hum. compute_done.
    + rewrite <- Hum, <- Ham. by vm_compute.
    + exists earlier. split; [by rewrite <- Hmessages|exact Hperm].
Defined.

(** ** The provider call *)

Lemma newest_llmApiKey_Some d projectId key :
  newest_llmApiKey d projectId = Some key ->
  key ∈ llmApiKeys d
  /\ LlmApiKeys.projectId key = projectId
  /\ Forall
       (fun k =>
          LlmApiKeys.projectId k = projectId ->
          LlmApiKeys.createdAt k <= LlmApiKeys.createdAt key)
       (llmApiKeys d).
Proof.
  unfold newest_llmApiKey. intros Hhead.
  pose proof (store_orderBy_Permutation LlmApiKeys.createdAt (tie_llmApiKeys d)
                desc
                (filter (fun k => LlmApiKeys.projectId k = projectId)
                   (llmApiKeys d))) as Hperm.
  pose proof (store_orderBy_StronglySorted LlmApiKeys.createdAt
                (tie_llmApiKeys d) desc
                (filter (fun k => LlmApiKeys.projectId k = projectId)
                   (llmApiKeys d))) as Hsorted.
  destruct (store_orderBy (tie_llmApiKeys d) LlmApiKeys.createdAt desc _)
    as [|k rest]; [done|].
  injection Hhead as ->.
  assert (Hin : key ∈ filter (fun k => LlmApiKeys.projectId k = projectId)
                        (llmApiKeys d)) by (rewrite <- Hperm; left).
  apply list_elem_of_filter in Hin. destruct Hin as [Hproject Hin].
  split; [done|]. split; [done|].
  apply Forall_forall. intros k Hk Hkp.
  assert (Hk' : k ∈ key :: rest).
  { rewrite Hperm. apply list_elem_of_filter. by split. }
  apply StronglySorted_inv in Hsorted. destruct Hsorted as [_ Hall].
  apply elem_of_cons in Hk'. destruct Hk' as [->|Hk']; [lia|].
  exact (proj1 (Forall_forall _ _) Hall k Hk').
Qed.

Lemma filter_provider_calls_quiet evs :
  Forall (fun e => ~ is_provider_call e) evs -> filter is_provider_call evs = [].
Proof.
  induction 1 as [|e evs He _ IH]; [done|].
  by rewrite filter_cons_False.
Qed.

(** What a send adds to the trace, whatever its outcome: statements, then
    the events of the reply step if that step is reached, then statements. *)
Lemma sendMessage_mutation_trace env ctx input w :
  exists before call after,
    trace (snd (conversationsRouter.sendMessage_mutation env ctx input w))
    = trace w ++ before ++ call ++ after
    /\ Forall (fun e => ~ is_provider_call e) (before ++ after)
    /\ (call = []
        \/ call = reply_events env input w
           /\ last before
              = Some (Ev_llmApiKeys_findFirst (SendMessageInput.projectId input))
           /\ head after
              = Some (Ev_message_create
                        (sent_assistantMessage env input w
                           (reply_text env input w))))
    /\ (forall c,
          has_nul (SendMessageInput.conversationId input) = false ->
          has_nul (SendMessageInput.content input) = false ->
          lookup_conversation (db w) (SendMessageInput.conversationId input)
            (SendMessageInput.projectId input) (session_user_id ctx) = Some c ->
          call = reply_events env input w).
Proof.
  destruct (sendMessage_mutation_outcome env ctx input w)
    as [[Hrejected ->]|[(_ & Hnone & ->)|[(c & _ & _ & Hrejected & ->)
       |[(c & _ & _ & _ & _ & ->)|(c & _ & _ & _ & _ & ->)]]]];
    cbn [snd].
  - exists [Ev_conversation_findFirst (SendMessageInput.conversationId input)
              (SendMessageInput.projectId input) (session_user_id ctx)], [], [].
    split; [reflexivity|]. split.
    + repeat constructor; by intros [].
    + split; [by left|]. intros c Hid_nul. congruence.
  - exists [Ev_conversation_findFirst (SendMessageInput.conversationId input)
              (SendMessageInput.projectId input) (session_user_id ctx)], [], [].
    split; [reflexivity|]. split.
    + repeat constructor; by intros [].
    + split; [by left|]. intros c _ _ Hfound. congruence.
  - exists [Ev_conversation_findFirst (SendMessageInput.conversationId input)
              (SendMessageInput.projectId input) (session_user_id ctx);
            Ev_message_create (sent_userMessage env input w)], [], [].
    split; [reflexivity|]. split.
    + repeat constructor; by intros [].
    + split; [by left|]. intros c' _ Hcontent. congruence.
  - exists [Ev_conversation_findFirst (SendMessageInput.conversationId input)
              (SendMessageInput.projectId input) (session_user_id ctx);
            Ev_message_create (sent_userMessage env input w);
            Ev_message_findMany (SendMessageInput.conversationId input);
            Ev_llmApiKeys_findFirst (SendMessageInput.projectId input)],
      (reply_events env input w),
      [Ev_message_create
         (sent_assistantMessage env input w (reply_text env input w))].
    split; [reflexivity|]. split.
    + repeat constructor; by intros [].
    + split; [by right|]. done.
  - exists [Ev_conversation_findFirst (SendMessageInput.conversationId input)
              (SendMessageInput.projectId input) (session_user_id ctx);
            Ev_message_create (sent_userMessage env input w);
            Ev_message_findMany (SendMessageInput.conversationId input);
            Ev_llmApiKeys_findFirst (SendMessageInput.projectId input)],
      (reply_events env input w),
      [Ev_message_create
         (sent_assistantMessage env input w (reply_text env input w));
       Ev_conversation_update (SendMessageInput.conversationId input)
         (sent_updatedAt env input w)].
    split; [reflexivity|]. split.
    + repeat constructor; by intros [].
    + split; [by right|]. done.
Qed.

(** X6. Whatever its outcome, a send calls the provider at most once, and
    then between the credential lookup and the storing of the reply.  When it
    does, the credential is the project's own and its newest, it decoded, the
    key passed is its decrypted secret, and the call is not streaming, with
    one retry, model gpt-3.5-turbo, temperature 0.7 and at most 1000 tokens.
    And it does call the provider when the conversation is found, identifier
    and content have no NUL, and the newest credential decodes. *)
Theorem sendMessage_provider_call env ctx input w :
  exists before call after,
    trace (snd (conversationsRouter.sendMessage_mutation env ctx input w))
    = trace w ++ before ++ call ++ after
    /\ Forall (fun e => ~ is_provider_call e) (before ++ after)
    /\ (call = []
        \/ exists params key data,
             call = [Ev_fetchLLMCompletion params]
             /\ last before
                = Some (Ev_llmApiKeys_findFirst
                          (SendMessageInput.projectId input))
             /\ head after
                = Some (Ev_message_create
                          (sent_assistantMessage env input w
                             (reply_text env input w)))
             /\ key ∈ llmApiKeys (db w)
             /\ LlmApiKeys.projectId key = SendMessageInput.projectId input
             /\ Forall
                  (fun k =>
                     LlmApiKeys.projectId k = SendMessageInput.projectId input ->
                     LlmApiKeys.createdAt k <= LlmApiKeys.createdAt key)
                  (llmApiKeys (db w))
             /\ LLMApiKeySchema_safeParse env key = ParseSuccess data
             /\ decrypt env (ParsedKey.secretKey data)
                = inr (FetchLLMCompletionParams.apiKey params)
             /\ FetchLLMCompletionParams.baseURL params
                = js_or_undefined (ParsedKey.baseURL data)
             /\ FetchLLMCompletionParams.streaming params = false
             /\ FetchLLMCompletionParams.maxRetries params = 1
             /\ FetchLLMCompletionParams.modelParams params
                = ModelParams.mk (ParsedKey.provider data)
                    (ParsedKey.adapter data) "gpt-3.5-turbo" (7 # 10)%Q 1000)
    /\ (forall c key data apiKey headers,
          has_nul (SendMessageInput.conversationId input) = false ->
          has_nul (SendMessageInput.content input) = false ->
          lookup_conversation (db w) (SendMessageInput.conversationId input)
            (SendMessageInput.projectId input) (session_user_id ctx) = Some c ->
          newest_llmApiKey (db w) (SendMessageInput.projectId input) = Some key ->
          LLMApiKeySchema_safeParse env key = ParseSuccess data ->
          decrypt env (ParsedKey.secretKey data) = inr apiKey ->
          decryptAndParseExtraHeaders env (ParsedKey.extraHeaders data)
          = inr headers ->
          exists params, call = [Ev_fetchLLMCompletion params]).
Proof.
  destruct (sendMessage_mutation_trace env ctx input w)
    as (before & call & after & Htrace & Hquiet & Hcall & Hreached).
  exists before, call, after. split; [exact Htrace|]. split; [exact Hquiet|].
  split.
  - destruct Hcall as [Hnil|(Hcall & Hlast & Hhead)]; [by left|].
    pose proof (reply_events_cases env input w) as Hcases.
    destruct (newest_llmApiKey (db w) (SendMessageInput.projectId input))
      as [key|] eqn:Hkey.
    + destruct Hcases as [[Hnil _]
                         |(data & apiKey & headers & Hparse & Hdecrypt & _
                           & Hone & _)].
      * left. by rewrite Hcall.
      * right. apply newest_llmApiKey_Some in Hkey.
        destruct Hkey as (Hin & Hproject & Hnewest).
        eexists. exists key, data. split; [by rewrite Hcall, Hone|].
        split_and!; try done.
    + left. rewrite Hcall. by destruct Hcases.
  - intros c key data apiKey headers Hid_nul Hcontent Hfound Hkey Hparse
      Hdecrypt Hheaders.
    eexists. rewrite (Hreached c Hid_nul Hcontent Hfound).
    by apply (reply_events_called env input w key data apiKey headers).
Qed.

Lemma sendMessage_provider_call_witness :
  exists call params,
    filter is_provider_call
      (trace (snd (conversationsRouter.sendMessage_mutation
                     (Sample.env (inr (CompletionString "pong"))) Sample.alice
                     (Sample.send "p1" "c1" "ping")
                     (Sample.world (Sample.seeded 2) [Sample.key1]))))
    = call
    /\ call = [Ev_fetchLLMCompletion params]
    /\ FetchLLMCompletionParams.maxRetries params = 1.
Proof.
  destruct (sendMessage_provider_call
              (Sample.env (inr (CompletionString "pong"))) Sample.alice
              (Sample.send "p1" "c1" "ping")
              (Sample.world (Sample.seeded 2) [Sample.key1]))
    as (before & call & after & Htrace & Hquiet & Hcall & Hreached).
  destruct (Hreached Sample.conv1 Sample.key1 _ _ _ eq_refl eq_refl eq_refl
              eq_refl eq_refl eq_refl eq_refl)
    as [params Hone].
  exists call, params. split; [|split; [exact Hone|]].
  - rewrite Htrace. cbn [trace Sample.world app].
    rewrite !filter_app.
    rewrite Forall_app in Hquiet. destruct Hquiet as [Hbefore Hafter].
    rewrite (filter_provider_calls_quiet before Hbefore).
    rewrite (filter_provider_calls_quiet after Hafter).
    rewrite Hone, app_nil_r. reflexivity.
  - destruct Hcall as [Hnil|(params' & key & data & Hone' & Hrest)];
      [congruence|].
    rewrite Hone in Hone'. injection Hone' as <-. apply Hrest.
Defined.



(** X8. When the provider answers a send to a conversation of the caller
    (identifier and content without NUL), and a completion that is a string
    has no NUL, the reply stored and returned is the completion itself if it
    is a string, and the fixed apology for a missing response otherwise. *)
Theorem sendMessage_completion_becomes_reply env ctx input w c key data apiKey
    headers completion :
  has_nul (SendMessageInput.conversationId input) = false ->
  has_nul (SendMessageInput.content input) = false ->
  (forall s, completion = CompletionString s -> has_nul s = false) ->
  lookup_conversation (db w) (SendMessageInput.conversationId input)
    (SendMessageInput.projectId input) (session_user_id ctx) = Some c ->
  newest_llmApiKey (db w) (SendMessageInput.projectId input) = Some key ->
  LLMApiKeySchema_safeParse env key = ParseSuccess data ->
  decrypt env (ParsedKey.secretKey data) = inr apiKey ->
  decryptAndParseExtraHeaders env (ParsedKey.extraHeaders data) = inr headers ->
  fetchLLMCompletion env
    (completion_params data apiKey headers
       (chatMessages (loaded_history env input w)
          (SendMessageInput.content input)))
  = inr completion ->
  exists userMessage assistantMessage w',
    conversationsRouter.sendMessage_mutation env ctx input w
    = (inr (SendMessageResult.mk userMessage assistantMessage), w')
    /\ message (db w') = message (db w) ++ [userMessage; assistantMessage]
    /\ Message.sender assistantMessage = ASSISTANT
    /\ Message.content assistantMessage
       = match completion with
         | CompletionString s => s
         | CompletionOther =>
             "I apologize, but I couldn't generate a proper response. Please try again."
         end.
Proof.
  intros Hid_nul Hcontent Hcompletion Hfound Hkey Hparse Hdecrypt Hheaders
    Hfetch.
  assert (Hreply : forall w0,
    assistantResponse env
      (newest_llmApiKey (db w) (SendMessageInput.projectId input))
      (loaded_history env input w) (SendMessageInput.content input) w0
    = (inr (match completion with
            | CompletionString s => s
            | CompletionOther => noCompletionResponse
            end),
       add_events w0
         [Ev_fetchLLMCompletion
            (completion_params data apiKey headers
               (chatMessages (loaded_history env input w)
                  (SendMessageInput.content input)))])).
  { intros w0. rewrite Hkey. unfold assistantResponse, try_catch.
    rewrite (completion_attempt_calls _ _ _ _ _ _ _ _ Hparse Hdecrypt Hheaders).
    rewrite Hfetch. by destruct completion. }
  pose proof (sendMessage_mutation_run env ctx input w c _ _ Hid_nul Hcontent
                Hfound Hreply) as Hrun.
  assert (Hreply_nul :
    has_nul (match completion with
             | CompletionString s => s
             | CompletionOther => noCompletionResponse
             end) = false).
  { destruct completion as [s|]; [by apply Hcompletion|by vm_compute]. }
  rewrite Hreply_nul in Hrun.
  do 3 eexists. split; [exact Hrun|]. unfold world_after_send.
  cbn [db message with_rows].
  split; [done|]. split; [done|]. by destruct completion.
Qed.

Lemma sendMessage_completion_becomes_reply_witness :
  exists userMessage assistantMessage w',
    conversationsRouter.sendMessage_mutation
      (Sample.env (inr (CompletionString "pong"))) Sample.alice
      (Sample.send "p1" "c1" "ping")
      (Sample.world (Sample.seeded 2) [Sample.key1])
    = (inr (SendMessageResult.mk userMessage assistantMessage), w')
    /\ Message.content assistantMessage = "pong".
Proof.
  destruct (sendMessage_completion_becomes_reply
              (Sample.env (inr (CompletionString "pong"))) Sample.alice
              (Sample.send "p1" "c1" "ping")
              (Sample.world (Sample.seeded 2) [Sample.key1]) Sample.conv1
              Sample.key1
              (ParsedKey.mk "openai" "openai" "sealed" None None None)
              "plain:sealed" None (CompletionString "pong"))
    as (um & am & w' & Hrun & _ & _ & Hcontent);
    try reflexivity.
  - intros s Hs. injection Hs as <-. reflexivity.
  - exists um, am, w'. split; [exact Hrun|]. exact Hcontent.
Defined.

(** X9. A credential that the schema rejects is never sent anywhere: on a
    send to a conversation of the caller (identifier, content and the
    schema's message without NUL) the provider is not called, and the reply
    is the apology naming an invalid API key configuration with the schema's
    message. *)
Theorem sendMessage_invalid_credential env ctx input w c key message :
  has_nul (SendMessageInput.conversationId input) = false ->
  has_nul (SendMessageInput.content input) = false ->
  has_nul message = false ->
  lookup_conversation (db w) (SendMessageInput.conversationId input)
    (SendMessageInput.projectId input) (session_user_id ctx) = Some c ->
  newest_llmApiKey (db w) (SendMessageInput.projectId input) = Some key ->
  LLMApiKeySchema_safeParse env key = ParseFailure message ->
  exists userMessage assistantMessage w',
    conversationsRouter.sendMessage_mutation env ctx input w
    = (inr (SendMessageResult.mk userMessage assistantMessage), w')
    /\ Message.content assistantMessage
       = providerErrorResponse ("Invalid API key configuration: " +:+ message)
    /\ trace w'
       = trace w
         ++ [Ev_conversation_findFirst (SendMessageInput.conversationId input)
               (SendMessageInput.projectId input) (session_user_id ctx);
             Ev_message_create userMessage;
             Ev_message_findMany (SendMessageInput.conversationId input);
             Ev_llmApiKeys_findFirst (SendMessageInput.projectId input);
             Ev_message_create assistantMessage;
             Ev_conversation_update (SendMessageInput.conversationId input)
               (sent_updatedAt env input w)].
Proof.
  intros Hid_nul Hcontent Hmessage Hfound Hkey Hparse.
  assert (Hreply : forall w0,
    assistantResponse env
      (newest_llmApiKey (db w) (SendMessageInput.projectId input))
      (loaded_history env input w) (SendMessageInput.content input) w0
    = (inr (providerErrorResponse (invalidApiKeyConfiguration message)),
       add_events w0 [])).
  { intros w0. rewrite Hkey. unfold assistantResponse, try_catch.
    rewrite (completion_attempt_invalid_key _ _ _ _ _ _ Hparse).
    unfold ret. simpl. by rewrite add_events_nil. }
  pose proof (sendMessage_mutation_run env ctx input w c _ _ Hid_nul Hcontent
                Hfound Hreply) as Hrun.
  rewrite providerErrorResponse_no_nul in Hrun.
  2:{ unfold invalidApiKeyConfiguration. rewrite has_nul_append, Hmessage.
      by vm_compute. }
  do 3 eexists. split; [exact Hrun|]. unfold world_after_send. cbn [trace].
  by split.
Qed.

(** X10. When decrypting the credential's secret or its extra headers throws,
    on a send to a conversation of the caller (identifier, content and the
    error's text without NUL), the provider is not called either, and the
    reply is the apology with the error's text. *)
Theorem sendMessage_undecryptable_credential env ctx input w c key data e :
  has_nul (SendMessageInput.conversationId input) = false ->
  has_nul (SendMessageInput.content input) = false ->
  has_nul (error_message e) = false ->
  lookup_conversation (db w) (SendMessageInput.conversationId input)
    (SendMessageInput.projectId input) (session_user_id ctx) = Some c ->
  newest_llmApiKey (db w) (SendMessageInput.projectId input) = Some key ->
  LLMApiKeySchema_safeParse env key = ParseSuccess data ->
  decrypt env (ParsedKey.secretKey data) = inl e
  \/ (exists apiKey, decrypt env (ParsedKey.secretKey data) = inr apiKey)
     /\ decryptAndParseExtraHeaders env (ParsedKey.extraHeaders data) = inl e ->
  exists userMessage assistantMessage w',
    conversationsRouter.sendMessage_mutation env ctx input w
    = (inr (SendMessageResult.mk userMessage assistantMessage), w')
    /\ Message.content assistantMessage
       = providerErrorResponse (error_message e)
    /\ trace w'
       = trace w
         ++ [Ev_conversation_findFirst (SendMessageInput.conversationId input)
               (SendMessageInput.projectId input) (session_user_id ctx);
             Ev_message_create userMessage;
             Ev_message_findMany (SendMessageInput.conversationId input);
             Ev_llmApiKeys_findFirst (SendMessageInput.projectId input);
             Ev_message_create assistantMessage;
             Ev_conversation_update (SendMessageInput.conversationId input)
               (sent_updatedAt env input w)].
Proof.
  intros Hid_nul Hcontent Herror Hfound Hkey Hparse Hthrows.
  assert (Hattempt : forall w0,
    completion_attempt env key (loaded_history env input w)
      (SendMessageInput.content input) w0 = (inl e, w0)).
  { intros w0. destruct Hthrows as [Hdecrypt|[[apiKey Hdecrypt] Hheaders]].
    - by apply (completion_attempt_decrypt_throws _ _ _ _ _ data).
    - by apply (completion_attempt_headers_throw _ _ _ _ _ data apiKey). }
  assert (Hreply : forall w0,
    assistantResponse env
      (newest_llmApiKey (db w) (SendMessageInput.projectId input))
      (loaded_history env input w) (SendMessageInput.content input) w0
    = (inr (providerErrorResponse (error_message e)), add_events w0 [])).
  { intros w0. rewrite Hkey. unfold assistantResponse, try_catch.
    rewrite Hattempt. unfold ret. by rewrite add_events_nil. }
  pose proof (sendMessage_mutation_run env ctx input w c _ _ Hid_nul Hcontent
                Hfound Hreply) as Hrun.
  rewrite (providerErrorResponse_no_nul _ Herror) in Hrun.
  do 3 eexists. split; [exact Hrun|]. unfold world_after_send. cbn [trace].
  by split.
Qed.

Lemma sendMessage_invalid_credential_witness :
  exists userMessage assistantMessage w',
    conversationsRouter.sendMessage_mutation SampleMore.env_invalid
      Sample.alice (Sample.send "p1" "c1" "ping")
      (Sample.world [] [Sample.key1])
    = (inr (SendMessageResult.mk userMessage assistantMessage), w')
    /\ Message.content assistantMessage
       = providerErrorResponse
           "Invalid API key configuration: secretKey: Required".
Proof.
  destruct (sendMessage_invalid_credential SampleMore.env_invalid
              Sample.alice (Sample.send "p1" "c1" "ping")
              (Sample.world [] [Sample.key1]) Sample.conv1 Sample.key1
              "secretKey: Required")
    as (um & am & w' & Hrun & Hcontent & _); try reflexivity.
  exists um, am, w'. split; [exact Hrun|]. exact Hcontent.
Defined.

Lemma sendMessage_undecryptable_credential_witness :
  exists userMessage assistantMessage w',
    conversationsRouter.sendMessage_mutation SampleMore.env_sealed
      Sample.alice (Sample.send "p1" "c1" "ping")
      (Sample.world [] [Sample.key1])
    = (inr (SendMessageResult.mk userMessage assistantMessage), w')
    /\ Message.content assistantMessage = providerErrorResponse "Unknown error".
Proof.
  destruct (sendMessage_undecryptable_credential SampleMore.env_sealed
              Sample.alice (Sample.send "p1" "c1" "ping")
              (Sample.world [] [Sample.key1]) Sample.conv1 Sample.key1
              (ParsedKey.mk "openai" "openai" "sealed" None None None)
              NonError)
    as (um & am & w' & Hrun & Hcontent & _); try reflexivity.
  - by left.
  - exists um, am, w'. split; [exact Hrun|]. exact Hcontent.
Defined.

(** ** Creating a conversation *)

(** No message of the store belongs to a conversation that is not stored. *)
Lemma messages_of_fresh d id :
  referential_integrity d ->
  id ∉ Conversation.id <$> conversation d ->
  messages_of id (message d) = [].
Proof.
  unfold referential_integrity, messages_of. intros Hint Hfresh.
  induction Hint as [|m l Hm Hl IH]; [done|].
  rewrite filter_cons_False; [done|]. intros Heq. by rewrite Heq in Hm.
Qed.

Lemma lookup_conversation_fresh d id projectId userId :
  id ∉ Conversation.id <$> conversation d ->
  filter (conversation_where id projectId userId) (conversation d) = [].
Proof.
  intros Hfresh. induction (conversation d) as [|c l IH]; [done|].
  rewrite fmap_cons, not_elem_of_cons in Hfresh. destruct Hfresh as [Hc Hl].
  rewrite filter_cons_False; [by apply IH|].
  intros [Hid _]. congruence.
Qed.

(** X11. A conversation just created, under an identifier no stored
    conversation has, is found by its creator in its project with no
    messages, and is not found by any other user or under any other
    project. *)
Theorem create_then_byId env ctx input w :
  cuid env (ids_issued w) ∉ Conversation.id <$> conversation (db w) ->
  referential_integrity (db w) ->
  let row := created_conversation env ctx input w in
  let w1 := snd (conversationsRouter.create_mutation env ctx input w) in
  fst (conversationsRouter.create_mutation env ctx input w) = inr row
  /\ fst (conversationsRouter.byId_query ctx
            (GetConversationInput.mk (ProjectInput.projectId input)
               (Conversation.id row)) w1)
     = inr (ConversationDetail.mk row [])
  /\ forall ctx' input',
       GetConversationInput.conversationId input' = Conversation.id row ->
       session_user_id ctx' <> session_user_id ctx
       \/ GetConversationInput.projectId input' <> ProjectInput.projectId input ->
       fst (conversationsRouter.byId_query ctx' input' w1)
       = inl (TRPCError NOT_FOUND conversationNotFound).
Proof.
  intros Hfresh Hint row w1. subst w1.
  rewrite create_mutation_run. cbn [fst snd]. split; [reflexivity|].
  fold (created_conversation env ctx input w). fold row.
  assert (Hrow_nul : has_nul (Conversation.id row) = false)
    by apply cuid_no_nul.
  split.
  - rewrite byId_query_run.
    cbn [fst db message conversation tie_message with_rows
         GetConversationInput.conversationId GetConversationInput.projectId].
    rewrite Hrow_nul.
    unfold lookup_conversation. cbn [conversation with_rows].
    rewrite filter_app, lookup_conversation_fresh by exact Hfresh.
    rewrite filter_cons_True by done. cbn [app head].
    change (Conversation.id row) with (cuid env (ids_issued w)).
    by rewrite (messages_of_fresh _ _ Hint Hfresh).
  - intros ctx' input' Hid Hother. rewrite byId_query_run, Hid, Hrow_nul.
    cbn [fst db conversation]. unfold lookup_conversation.
    cbn [conversation with_rows].
    rewrite filter_app, lookup_conversation_fresh by exact Hfresh.
    rewrite filter_cons_False; [done|].
    intros (_ & Hp & Hu). simpl in Hp, Hu. destruct Hother; congruence.
Qed.

Lemma create_then_byId_witness :
  fst (conversationsRouter.byId_query Sample.alice
         (GetConversationInput.mk "p1" "id0")
         (snd (conversationsRouter.create_mutation
                 (Sample.env (inr CompletionOther)) Sample.alice
                 (ProjectInput.mk "p1") (Sample.world (Sample.seeded 3) []))))
  = inr (ConversationDetail.mk
           (Conversation.mk "id0" 101 101 "alice" "p1") []).
Proof.
  apply (create_then_byId (Sample.env (inr CompletionOther)) Sample.alice
           (ProjectInput.mk "p1") (Sample.world (Sample.seeded 3) [])).
  - compute_done.
  - unfold referential_integrity. compute_done.
Defined.

(** X12. Creating a conversation adds exactly one entry to the creator's
    listing for the project, with no message and a count of 0. *)
Theorem create_then_all env ctx input w :
  cuid env (ids_issued w) ∉ Conversation.id <$> conversation (db w) ->
  referential_integrity (db w) ->
  let row := created_conversation env ctx input w in
  exists before after,
    fst (conversationsRouter.all_query ctx input w) = inr before
    /\ fst (conversationsRouter.all_query ctx input
              (snd (conversationsRouter.create_mutation env ctx input w)))
       = inr after
    /\ after
       ≡ₚ before
          ++ [ConversationSummary.mk (Conversation.id row)
                (Conversation.createdAt row) (Conversation.updatedAt row)
                0 null].
Proof.
  intros Hfresh Hint row.
  rewrite create_mutation_run, !all_query_run. cbn [fst snd].
  fold (created_conversation env ctx input w). fold row.
  do 2 eexists. split; [reflexivity|]. split; [reflexivity|].
  cbn [db conversation with_rows].
  rewrite !store_orderBy_Permutation, filter_app, fmap_app.
  apply Permutation_app; [done|].
  rewrite filter_cons_True by done. rewrite filter_nil.
  unfold summary_of. cbn [fmap list_fmap message tie_message with_rows].
  change (Conversation.id row) with (cuid env (ids_issued w)).
  by rewrite (messages_of_fresh _ _ Hint Hfresh).
Qed.

Lemma create_then_all_witness :
  exists after,
    fst (conversationsRouter.all_query Sample.alice (ProjectInput.mk "p1")
           (snd (conversationsRouter.create_mutation
                   (Sample.env (inr CompletionOther)) Sample.alice
                   (ProjectInput.mk "p1")
                   (Sample.world (Sample.seeded 3) []))))
    = inr after
    /\ ConversationSummary.mk "id0" 101 101 0 null ∈ after.
Proof.
  destruct (create_then_all (Sample.env (inr CompletionOther)) Sample.alice
              (ProjectInput.mk "p1") (Sample.world (Sample.seeded 3) []))
    as (before & after & _ & Hafter & Hperm).
  - compute_done.
  - unfold referential_integrity. compute_done.
  - exists after. split; [exact Hafter|].
    rewrite Hperm. apply elem_of_app. right. left.
Defined.

(** X13. Creating a conversation changes nobody else's listing, nor the
    creator's listing for another project. *)
Theorem create_invisible_to_others env ctx input w ctx' input' :
  session_user_id ctx' <> session_user_id ctx
  \/ ProjectInput.projectId input' <> ProjectInput.projectId input ->
  fst (conversationsRouter.all_query ctx' input'
         (snd (conversationsRouter.create_mutation env ctx input w)))
  = fst (conversationsRouter.all_query ctx' input' w).
Proof.
  intros Hother. rewrite create_mutation_run, !all_query_run.
  cbn [fst snd db conversation with_rows]. rewrite filter_app.
  rewrite filter_cons_False, filter_nil, app_nil_r; [reflexivity|].
  intros [Hp Hu]. simpl in Hp, Hu. destruct Hother; congruence.
Qed.

Lemma create_invisible_to_others_witness :
  fst (conversationsRouter.all_query Sample.mallory (ProjectInput.mk "p1")
         (snd (conversationsRouter.create_mutation
                 (Sample.env (inr CompletionOther)) Sample.alice
                 (ProjectInput.mk "p1") (Sample.world (Sample.seeded 3) []))))
  = inr [ConversationSummary.mk "c3" 30 30 0 null].
Proof.
  rewrite (create_invisible_to_others (Sample.env (inr CompletionOther))
             Sample.alice (ProjectInput.mk "p1")
             (Sample.world (Sample.seeded 3) []) Sample.mallory
             (ProjectInput.mk "p1")).
  - reflexivity.
  - by left.
Defined.

(** ** Input schemas and the gate of the procedures *)

Lemma z_string_Some v s : z_string v = Some s <-> v = Some (JString s).
Proof.
  unfold z_string. destruct v as [[| | |s']|]; split; intros H; try done.
  - by injection H as ->.
  - by injection H as ->.
Qed.

Lemma z_string_min_Some v s :
  z_string_min 1 v = Some s <-> v = Some (JString s) /\ s <> EmptyString.
Proof.
  unfold z_string_min.
  destruct (z_string v) as [s'|] eqn:Hv.
  - apply z_string_Some in Hv. subst v. destruct s' as [|a s']; simpl.
    + split; [done|]. intros [H Hne]. injection H as <-. done.
    + split.
      * intros H. injection H as <-. done.
      * intros [H _]. by injection H as <-.
  - split; [done|]. intros [H _]. apply z_string_Some in H. congruence.
Qed.

(** X14. The schema of [sendMessage] accepts a JSON object exactly when its
    three fields are strings and the content is not empty, and then hands the
    resolver these three strings unchanged; whitespace is not trimmed, other
    fields are ignored. *)
Theorem SendMessageSchema_accepts_iff raw input :
  SendMessageSchema raw = Some input
  <-> raw !! "projectId" = Some (JString (SendMessageInput.projectId input))
      /\ raw !! "conversationId"
         = Some (JString (SendMessageInput.conversationId input))
      /\ raw !! "content" = Some (JString (SendMessageInput.content input))
      /\ SendMessageInput.content input <> EmptyString.
Proof.
  unfold SendMessageSchema. split.
  - intros H.
    destruct (z_string (raw !! "projectId")) as [p|] eqn:Hp; [|done].
    destruct (z_string (raw !! "conversationId")) as [c|] eqn:Hc; [|done].
    destruct (z_string_min 1 (raw !! "content")) as [t|] eqn:Ht; [|done].
    simpl in H. injection H as <-. simpl.
    apply z_string_Some in Hp, Hc. apply z_string_min_Some in Ht. tauto.
  - intros (Hp & Hc & Ht & Hne). destruct input as [p c t]. simpl in *.
    rewrite (proj2 (z_string_Some _ _) Hp). simpl.
    rewrite (proj2 (z_string_Some _ _) Hc). simpl.
    by rewrite (proj2 (z_string_min_Some _ _) (conj Ht Hne)).
Qed.

(** X15. An input whose [projectId] is missing or not a string is answered
    with BAD_REQUEST by all four procedures, and nothing happens: no
    statement is issued, no row written, no identifier or clock reading
    used. *)
Theorem procedures_require_projectId env ctx raw w :
  z_string (raw !! "projectId") = None ->
  conversationsRouter.all env ctx raw w
  = (inl (TRPCError BAD_REQUEST (zodMessage env raw)), w)
  /\ conversationsRouter.byId env ctx raw w
     = (inl (TRPCError BAD_REQUEST (zodMessage env raw)), w)
  /\ conversationsRouter.create env ctx raw w
     = (inl (TRPCError BAD_REQUEST (zodMessage env raw)), w)
  /\ conversationsRouter.sendMessage env ctx raw w
     = (inl (TRPCError BAD_REQUEST (zodMessage env raw)), w).
Proof.
  intros Hp.
  unfold conversationsRouter.all, conversationsRouter.byId,
    conversationsRouter.create, conversationsRouter.sendMessage,
    protectedProjectProcedure, CreateConversationSchema, ProjectSchema,
    GetConversationSchema, SendMessageSchema.
  by rewrite Hp.
Qed.

Lemma procedures_require_projectId_witness :
  conversationsRouter.create (Sample.env (inr CompletionOther)) Sample.alice
    {[ "projectId" := JNumber 7 ]} (Sample.world [] [])
  = (inl (TRPCError BAD_REQUEST "invalid input"), Sample.world [] []).
Proof.
  apply (procedures_require_projectId (Sample.env (inr CompletionOther))
           Sample.alice {[ "projectId" := JNumber 7 ]} (Sample.world [] [])).
  reflexivity.
Defined.

(** X16. An input whose [conversationId] is missing or not a string is
    answered with BAD_REQUEST by [byId] and [sendMessage], and nothing
    happens. *)
Theorem procedures_require_conversationId env ctx raw w :
  z_string (raw !! "conversationId") = None ->
  conversationsRouter.byId env ctx raw w
  = (inl (TRPCError BAD_REQUEST (zodMessage env raw)), w)
  /\ conversationsRouter.sendMessage env ctx raw w
     = (inl (TRPCError BAD_REQUEST (zodMessage env raw)), w).
Proof.
  intros Hc.
  unfold conversationsRouter.byId, conversationsRouter.sendMessage,
    protectedProjectProcedure, GetConversationSchema, SendMessageSchema.
  rewrite Hc. by destruct (z_string (raw !! "projectId")).
Qed.

Lemma procedures_require_conversationId_witness :
  conversationsRouter.sendMessage (Sample.env (inr CompletionOther))
    Sample.alice
    {[ "projectId" := JString "p1"; "content" := JString "hello" ]}
    (Sample.world [] [])
  = (inl (TRPCError BAD_REQUEST "invalid input"), Sample.world [] []).
Proof.
  apply (procedures_require_conversationId (Sample.env (inr CompletionOther))
           Sample.alice
           {[ "projectId" := JString "p1"; "content" := JString "hello" ]}
           (Sample.world [] [])).
  reflexivity.
Defined.

(** * The client *)

(** ** The chat form *)

(** X17. Whatever the form submits passes the schema of [sendMessage] and
    reaches the resolver with the trimmed text as content: the form never
    causes a BAD_REQUEST, and it submits nothing while a send is in flight. *)
Theorem ChatView_submits_valid_requests trim props st raw :
  ChatView.handleSubmit trim props st = Some raw ->
  ChatView.isLoading st = false
  /\ trim (ChatView.input st) <> EmptyString
  /\ SendMessageSchema raw
     = Some (SendMessageInput.mk (ChatView.projectId props)
               (ChatView.conversationId props) (trim (ChatView.input st)))
  /\ forall env ctx w,
       conversationsRouter.sendMessage env ctx raw w
       = conversationsRouter.sendMessage_mutation env ctx
           (SendMessageInput.mk (ChatView.projectId props)
              (ChatView.conversationId props) (trim (ChatView.input st))) w.
Proof.
  unfold ChatView.handleSubmit. intros H.
  destruct (bool_decide (trim (ChatView.input st) = EmptyString)) eqn:Hempty;
    [done|].
  destruct (ChatView.isLoading st); [done|].
  simpl in H. injection H as <-.
  apply bool_decide_eq_false in Hempty.
  pose proof (SendMessageSchema_accepts (ChatView.projectId props)
                (ChatView.conversationId props) _ Hempty) as Hschema.
  split; [done|]. split; [done|]. split; [done|].
  intros env ctx w. unfold conversationsRouter.sendMessage.
  by rewrite (protectedProjectProcedure_accepts _ _ _ _ _ _ Hschema).
Qed.

Lemma ChatView_submits_valid_requests_witness :
  SendMessageSchema (sendMessage_request "p1" "c1" "hello")
  = Some (SendMessageInput.mk "p1" "c1" "hello").
Proof.
  apply (ChatView_submits_valid_requests SampleMore.trim
           (ChatView.mkProps "p1" "c1") (ChatView.mkState "  hello " false)
           (sendMessage_request "p1" "c1" "hello")).
  reflexivity.
Defined.

(** X18. The submit button is disabled exactly when submitting would do
    nothing, and a key press submits only what the button would: Enter
    without Shift. *)
Theorem ChatView_button_agrees_with_submit trim props st :
  (ChatView.submitDisabled trim st = true
   <-> ChatView.handleSubmit trim props st = None)
  /\ forall key shiftKey raw,
       ChatView.handleKeyDown trim props st key shiftKey = Some raw ->
       key = "Enter" /\ shiftKey = false
       /\ ChatView.handleSubmit trim props st = Some raw
       /\ ChatView.submitDisabled trim st = false.
Proof.
  split.
  - unfold ChatView.submitDisabled, ChatView.handleSubmit.
    by destruct (_ || _).
  - intros key shiftKey raw. unfold ChatView.handleKeyDown.
    destruct (bool_decide (key = "Enter")) eqn:Hkey; [|done].
    destruct shiftKey; [done|]. simpl. intros H.
    apply bool_decide_eq_true in Hkey. split; [done|]. split; [done|].
    split; [done|].
    unfold ChatView.submitDisabled, ChatView.handleSubmit in *.
    by destruct (_ || _).
Qed.

(** ** The sidebar *)

Lemma ellipsize_spec n content :
  (length (ConversationList.ellipsize n content) <= n + 3)%nat
  /\ ((length content <= n)%nat -> ConversationList.ellipsize n content = content)
  /\ ((n < length content)%nat ->
      ConversationList.ellipsize n content
      = take n content ++ ConversationList.lit "..."
      /\ length (ConversationList.ellipsize n content) = (n + 3)%nat).
Proof.
  unfold ConversationList.ellipsize.
  destruct (decide (n < length content)%nat) as [Hlong|Hshort].
  - split; [|split; [lia|]].
    + rewrite length_app, length_take. simpl. lia.
    + intros _. split; [done|]. rewrite length_app, length_take. simpl. lia.
  - rewrite app_nil_r, take_ge by lia. split; [lia|]. split; [done|lia].
Qed.

(** X19. The preview of a conversation is never longer than 53 code units: it
    is the last message itself when that has at most 50, its first 50
    followed by three dots when it has more, and "No messages yet" when
    there is no last message. *)
Theorem getConversationPreview_spec conversation :
  (length (ConversationList.getConversationPreview conversation) <= 53)%nat
  /\ match ConversationList.lastMessage conversation with
     | defined m =>
         ((length (ConversationList.content m) <= 50)%nat ->
          ConversationList.getConversationPreview conversation
          = ConversationList.content m)
         /\ ((50 < length (ConversationList.content m))%nat ->
             ConversationList.getConversationPreview conversation
             = take 50 (ConversationList.content m)
               ++ ConversationList.lit "...")
     | _ =>
         ConversationList.getConversationPreview conversation
         = ConversationList.lit "No messages yet"
     end.
Proof.
  unfold ConversationList.getConversationPreview.
  destruct (ConversationList.lastMessage conversation) as [| |m].
  - split; [simpl; lia|done].
  - split; [simpl; lia|done].
  - destruct (ellipsize_spec 50 (ConversationList.content m))
      as (Hlen & Hshort & Hlong).
    split; [exact Hlen|]. split; [exact Hshort|].
    intros H. by destruct (Hlong H).
Qed.

(** X20. The title of a conversation is never longer than 33 code units.  It
    is "New Conversation" unless the last message is the user's; so a
    conversation whose last message is the assistant's reply is titled "New
    Conversation" whatever was said in it.  When the last message is the
    user's, the title is that message cut at 30 code units. *)
Theorem getConversationTitle_spec conversation :
  (length (ConversationList.getConversationTitle conversation) <= 33)%nat
  /\ match ConversationList.lastMessage conversation with
     | defined m =>
         match ConversationList.sender m with
         | USER =>
             ((length (ConversationList.content m) <= 30)%nat ->
              ConversationList.getConversationTitle conversation
              = ConversationList.content m)
             /\ ((30 < length (ConversationList.content m))%nat ->
                 ConversationList.getConversationTitle conversation
                 = take 30 (ConversationList.content m)
                   ++ ConversationList.lit "...")
         | ASSISTANT =>
             ConversationList.getConversationTitle conversation
             = ConversationList.lit "New Conversation"
         end
     | _ =>
         ConversationList.getConversationTitle conversation
         = ConversationList.lit "New Conversation"
     end.
Proof.
  unfold ConversationList.getConversationTitle.
  destruct (ConversationList.lastMessage conversation) as [| |m].
  - split; [simpl; lia|done].
  - split; [simpl; lia|done].
  - destruct (ConversationList.sender m); simpl.
    + destruct (ellipsize_spec 30 (ConversationList.content m))
        as (Hlen & Hshort & Hlong).
      split; [exact Hlen|]. split; [exact Hshort|].
      intros H. by destruct (Hlong H).
    + split; [simpl; lia|done].
Qed.

Example preview_of_long_message :
  ConversationList.getConversationPreview
    (ConversationList.mkItem
       (defined (ConversationList.mkLastMessage
                   (ConversationList.lit
                      "Please summarise the traces of the last seven days for me")
                   USER)))
  = ConversationList.lit
      "Please summarise the traces of the last seven days...".
Proof. reflexivity. Qed.

(** ** The listing after a send *)

(** X5. After a send that succeeds (the conversation is the caller's, and
    identifier, content and reply have no NUL), the caller's listing for the
    project has an entry for the conversation with the new [updatedAt], a
    message count two higher than the conversation had, and a last message
    that is set and was not created before the assistant's reply. *)
Theorem sendMessage_then_all env ctx input w c :
  has_nul (SendMessageInput.conversationId input) = false ->
  has_nul (SendMessageInput.content input) = false ->
  has_nul (reply_text env input w) = false ->
  lookup_conversation (db w) (SendMessageInput.conversationId input)
    (SendMessageInput.projectId input) (session_user_id ctx) = Some c ->
  exists userMessage assistantMessage w' listing entry last,
    conversationsRouter.sendMessage_mutation env ctx input w
    = (inr (SendMessageResult.mk userMessage assistantMessage), w')
    /\ fst (conversationsRouter.all_query ctx
              (ProjectInput.mk (SendMessageInput.projectId input)) w')
       = inr listing
    /\ entry ∈ listing
    /\ ConversationSummary.id entry = SendMessageInput.conversationId input
    /\ ConversationSummary.updatedAt entry = sent_updatedAt env input w
    /\ ConversationSummary.messageCount entry
       = (length (messages_of (SendMessageInput.conversationId input)
                    (message (db w))) + 2)%nat
    /\ ConversationSummary.lastMessage entry = defined last
    /\ Message.createdAt assistantMessage <= Message.createdAt last.
Proof.
  intros Hid_nul Hcontent Hreply_nul Hfound.
  pose proof (sendMessage_mutation_succeeds env ctx input w c Hid_nul Hcontent
                Hreply_nul Hfound) as Hrun.
  pose proof (lookup_conversation_Some _ _ _ _ _ Hfound)
    as [Hc (Hid & Hproject & Huser)].
  set (reply := reply_text env input w) in *.
  set (c' := set_updatedAt (SendMessageInput.conversationId input)
               (sent_updatedAt env input w) c).
  assert (Hc' : Conversation.id c' = SendMessageInput.conversationId input
                /\ Conversation.updatedAt c' = sent_updatedAt env input w
                /\ Conversation.projectId c' = SendMessageInput.projectId input
                /\ Conversation.userId c' = session_user_id ctx).
  { unfold c', set_updatedAt. by case_decide. }
  destruct Hc' as (Hid' & Hupdated & Hproject' & Huser').
  set (w' := world_after_send env ctx input w reply
               (reply_events env input w)) in *.
  pose proof (summary_of_summarizes (db w') c')
    as (Hsid & _ & Hsupdated & Hcount & Hlast).
  assert (Hmsgs : messages_of (Conversation.id c') (message (db w'))
                  = messages_of (SendMessageInput.conversationId input)
                      (message (db w))
                    ++ [sent_userMessage env input w;
                        sent_assistantMessage env input w reply]).
  { rewrite Hid'. unfold w', world_after_send. cbn [db message with_rows].
    apply messages_of_sent. }
  rewrite Hmsgs in Hcount, Hlast.
  destruct (ConversationSummary.lastMessage (summary_of (db w') c'))
    as [| |last] eqn:Hlm; simpl in Hlast.
  - done.
  - by destruct (messages_of _ _).
  - destruct Hlast as [_ Hmax].
    exists (sent_userMessage env input w),
      (sent_assistantMessage env input w reply), w'.
    eexists. exists (summary_of (db w') c'), last.
    split; [exact Hrun|]. split; [by rewrite all_query_run|].
    split.
    + apply list_elem_of_fmap_2. rewrite store_orderBy_Permutation.
      apply list_elem_of_filter. split; [by split|].
      unfold w', world_after_send. cbn [db conversation with_rows].
      by apply list_elem_of_fmap_2.
    + split; [by rewrite Hsid|]. split; [by rewrite Hsupdated|].
      split; [by rewrite Hcount, length_app|]. split; [exact Hlm|].
      rewrite Forall_app in Hmax. destruct Hmax as [_ Hmax].
      apply Forall_cons in Hmax. destruct Hmax as [_ Hmax].
      apply Forall_cons in Hmax. by destruct Hmax as [Hmax _].
Qed.

Lemma sendMessage_then_all_witness :
  exists w' listing entry,
    snd (conversationsRouter.sendMessage_mutation
           (Sample.env (inr (CompletionString "Hi!"))) Sample.alice
           (Sample.send "p1" "c1" "hello")
           (Sample.world (Sample.seeded 3) [Sample.key1])) = w'
    /\ fst (conversationsRouter.all_query Sample.alice (ProjectInput.mk "p1") w')
       = inr listing
    /\ entry ∈ listing
    /\ ConversationSummary.id entry = "c1"
    /\ ConversationSummary.messageCount entry = 5%nat.
Proof.
  destruct (sendMessage_then_all (Sample.env (inr (CompletionString "Hi!")))
              Sample.alice (Sample.send "p1" "c1" "hello")
              (Sample.world (Sample.seeded 3) [Sample.key1]) Sample.conv1)
    as (um & am & w' & listing & entry & last & Hrun & Hlisting & Hin & Hid
        & _ & Hcount & _).
  - reflexivity.
  - reflexivity.
  - by vm_compute.
  - reflexivity.
  - exists w', listing, entry. split; [by rewrite Hrun|].
    split; [exact Hlisting|]. split; [exact Hin|]. split; [exact Hid|].
    exact Hcount.
Defined.
